(** * Piper TTS API (server.py): request handlers and their effects

    A shallow embedding of [server.py].  The two handlers [health_check]
    and [synthesize] are written in a small state-and-exception monad over
    an explicit file system, a log of the system calls that change the
    world (file creation, chmod, process spawn, unlink) and the console.
    Everything the handlers cannot decide themselves (the platform name,
    the names drawn by [tempfile] and [uuid], what the engine does, which
    system calls the host refuses) is read from an environment record;
    what the temporary directory does with a text written to it and the
    user the server runs as are part of the state. *)

From Stdlib Require Import ZArith NArith String Ascii DecimalString.
From Stdlib.Strings Require Import Byte.
From stdpp Require Import gmap list.

Local Open Scope N_scope.

(** ** Text and bytes *)

(** A Python [str] is a sequence of code points, [bytes] a sequence of
    bytes.  [len] counts code points. *)
Abbreviation str := (list N).
Abbreviation bytes := (list byte).

(** String literals of the source (all of them ASCII). *)
Definition lit (s : string) : str :=
  (fun a => N_of_ascii a) <$> list_ascii_of_string s.

Definition len (s : str) : nat := length s.

(** Truth value of a sequence: empty is false. *)
Definition truthy {A} (l : list A) : bool :=
  match l with [] => false | _ :: _ => true end.

(** The code points [str.strip()] removes: Python's
    [Py_UNICODE_ISSPACE]. *)
Definition isspace (c : N) : bool :=
  ((9 <=? c) && (c <=? 13)) || ((28 <=? c) && (c <=? 32))
  || (c =? 0x85) || (c =? 0xA0) || (c =? 0x1680)
  || ((0x2000 <=? c) && (c <=? 0x200A))
  || (c =? 0x2028) || (c =? 0x2029) || (c =? 0x202F)
  || (c =? 0x205F) || (c =? 0x3000).

Fixpoint lstrip (s : str) : str :=
  match s with
  | c :: rest => if isspace c then lstrip rest else s
  | [] => []
  end.

Definition rstrip (s : str) : str := rev (lstrip (rev s)).

Definition strip (s : str) : str := rstrip (lstrip s).

(** [needle in hay]: contiguous occurrence. *)
Definition contains (needle hay : str) : Prop :=
  exists pre post, hay = pre ++ needle ++ post.

(** Decimal rendering of an integer, as [str(n)] and [%d] give it. *)
Definition str_of_Z (z : Z) : str := lit (NilZero.string_of_int (Z.to_int z)).

(** [bytes.decode()] with its defaults: strict UTF-8.  [None] stands for
    [UnicodeDecodeError]. *)
Definition is_cont (b : N) : bool := (0x80 <=? b) && (b <=? 0xBF).

Fixpoint utf8_decode (bs : list N) : option str :=
  match bs with
  | [] => Some []
  | b0 :: r0 =>
    if b0 <? 0x80 then cons b0 <$> utf8_decode r0
    else if (0xC2 <=? b0) && (b0 <=? 0xDF) then
      match r0 with
      | b1 :: r1 =>
        if is_cont b1
        then cons ((b0 - 0xC0) * 64 + (b1 - 0x80)) <$> utf8_decode r1
        else None
      | _ => None
      end
    else if (0xE0 <=? b0) && (b0 <=? 0xEF) then
      match r0 with
      | b1 :: b2 :: r2 =>
        let cp := (b0 - 0xE0) * 4096 + (b1 - 0x80) * 64 + (b2 - 0x80) in
        if is_cont b1 && is_cont b2 && (0x800 <=? cp)
           && negb ((0xD800 <=? cp) && (cp <=? 0xDFFF))
        then cons cp <$> utf8_decode r2
        else None
      | _ => None
      end
    else if (0xF0 <=? b0) && (b0 <=? 0xF4) then
      match r0 with
      | b1 :: b2 :: b3 :: r3 =>
        let cp := (b0 - 0xF0) * 262144 + (b1 - 0x80) * 4096
                  + (b2 - 0x80) * 64 + (b3 - 0x80) in
        if is_cont b1 && is_cont b2 && is_cont b3
           && (0x10000 <=? cp) && (cp <=? 0x10FFFF)
        then cons cp <$> utf8_decode r3
        else None
      | _ => None
      end
    else None
  end.

Definition decode (b : bytes) : option str := utf8_decode (Byte.to_N <$> b).

(** ** The world the handlers run in *)

(** A file holds text (written through a text-mode handle) or bytes, and
    carries its permission bits. *)
Inductive payload :=
| Text (s : str)
| Binary (b : bytes).

Record file := File { data : payload; mode : N }.

Definition utf8_width (c : N) : nat :=
  if c <? 0x80 then 1 else if c <? 0x800 then 2
  else if c <? 0x10000 then 3 else 4.

(** Size in bytes, as [os.path.getsize] reports it. *)
Definition size_of (f : file) : nat :=
  match data f with
  | Binary b => length b
  | Text s => foldr (fun c n => (utf8_width c + n)%nat) 0%nat s
  end.

(** System calls that change the world, in the order they are made.  The
    flag of [Chmod] and [Unlink] tells whether the call succeeded. *)
Inductive event :=
| Created (p : str)
| Chmod (p : str) (ok : bool)
| Spawned (argv : list str)
| Unlink (p : str) (ok : bool).

#[global] Instance event_eq_dec : EqDecision event.
Proof. solve_decision. Defined.

(** The exceptions the handlers meet.  All of them derive from
    [Exception]. *)
Inductive exn :=
| HTTPException (status_code : Z) (detail : str)
| TimeoutExpired (cmd : list str) (timeout : N)
| CalledProcessError (returncode : Z) (cmd : list str) (stderr : bytes)
| UnicodeDecodeError (object : bytes)
| UnicodeEncodeError (object : str)
| OSError (strerror : str).

(** What a child process does: how long it needs, and what it reports
    when left to finish. *)
Record child := Child {
  elapsed_ms : N;
  returncode : Z;
  stdout : bytes;
  stderr : bytes
}.

(** One invocation of the engine: either the process cannot be started
    (the message of the exception [subprocess.run] raises), or it runs;
    [artifact] is what it leaves at the path given after
    [--output_file], if anything. *)
Inductive spawn :=
| Started (c : child)
| NotStarted (msg : str).

Record engine_run := EngineRun { proc : spawn; artifact : option bytes }.

Record Env := {
  (** [platform.system()] *)
  platform_system : str;
  (** [os.getcwd()], and [os.listdir(".")] when ["."] exists *)
  cwd : str;
  cwd_listing : option (list str);
  (** directory, prefix and random part of the name [tempfile] picks *)
  temp_stem : str;
  (** [str(uuid.uuid4())] of line 75 and [uuid.uuid4().hex] of line 133 *)
  uuid_output : str;
  uuid_filename : str;
  (** the host refusing [os.chmod], with the error's message *)
  chmod_refused : option str;
  (** the host refusing the n-th [os.unlink] of the request *)
  unlink_refused : nat -> option str;
  (** the external engine as it runs on this host, from its arguments
      and standard input; what the run owes to the files of the host
      (the executable, its permission bits, the model) is part of this
      field and is not computed from the file system of the state *)
  engine : list str -> payload -> engine_run;
  (** [str(e)] for the exceptions of the standard library *)
  describe : exn -> str
}.

(** What becomes of a text written to a new file of the temporary
    directory (lines 78-80): the file is created and holds the text; or
    [NamedTemporaryFile] raises and nothing is created; or the file is
    created and the write, or the close that flushes it, raises: [kept]
    is what reached the file, which stays since [delete=False]. *)
Inductive staging :=
| Stored
| NotCreated (msg : str)
| NotWritten (e : exn) (kept : str).

(** The user the server runs as, seen from the engine file: the
    superuser, its owner, a member of its group, or anybody else. *)
Inductive who := Root | Owner | Group | Other.

(** What [access(2)] answers for [X_OK] on a regular file with the
    permission bits [m]: the superuser may execute it when any execute
    bit is set, everybody else by the bit of their class. *)
Definition may_execute (u : who) (m : N) : bool :=
  match u with
  | Root => N.testbit m 6 || N.testbit m 3 || N.testbit m 0
  | Owner => N.testbit m 6
  | Group => N.testbit m 3
  | Other => N.testbit m 0
  end.

Record state := State {
  fs : gmap str file;
  log : list event;
  console : list str;
  (** the temporary directory, by the text to be written *)
  tmpdir : str -> staging;
  (** the user the server runs as *)
  user : who
}.

(** A server run by the owner of its files, with a temporary directory
    that behaves as [t] says, before any request. *)
Definition host (fs0 : gmap str file) (t : str -> staging) : state :=
  {| fs := fs0; log := []; console := []; tmpdir := t; user := Owner |}.

(** The same server run by another user. *)
Definition run_by (u : who) (s : state) : state :=
  {| fs := fs s; log := log s; console := console s;
     tmpdir := tmpdir s; user := u |}.

(** The same with a temporary directory that stores what it is given:
    staging completes. *)
Definition init (fs0 : gmap str file) : state :=
  {| fs := fs0; log := []; console := [];
     tmpdir := fun _ => Stored; user := Owner |}.

(** ** Computations that may raise *)

Inductive outcome (A : Type) :=
| Return (a : A)
| Raise (e : exn).
Arguments Return {A} a.
Arguments Raise {A} e.

Definition M (A : Type) : Type := state -> outcome A * state.

#[global] Instance M_ret : MRet M := fun A a s => (Return a, s).

#[global] Instance M_bind : MBind M := fun A B k m s =>
  match m s with
  | (Return a, s') => k a s'
  | (Raise e, s') => (Raise e, s')
  end.

Definition raise {A} (e : exn) : M A := fun s => (Raise e, s).

(** [try: m except Exception as e: h e] *)
Definition try_except {A} (m : M A) (h : exn -> M A) : M A := fun s =>
  match m s with
  | (Raise e, s') => h e s'
  | r => r
  end.

(** [try: m finally: f]: [f] always runs; what [m] returned or raised
    stands unless [f] itself raises. *)
Definition try_finally {A} (m : M A) (f : M unit) : M A := fun s =>
  let '(r, s') := m s in
  match f s' with
  | (Return _, s'') => (r, s'')
  | (Raise e, s'') => (Raise e, s'')
  end.

Definition emit (ev : event) : M unit := fun s =>
  (Return tt, {| fs := fs s; log := log s ++ [ev]; console := console s;
                 tmpdir := tmpdir s; user := user s |}).

Definition print (line : str) : M unit := fun s =>
  (Return tt, {| fs := fs s; log := log s; console := console s ++ [line];
                 tmpdir := tmpdir s; user := user s |}).

Definition set_fs (g : gmap str file -> gmap str file) : M unit := fun s =>
  (Return tt, {| fs := g (fs s); log := log s; console := console s;
                 tmpdir := tmpdir s; user := user s |}).

Definition get_fs : M (gmap str file) := fun s => (Return (fs s), s).

Definition get_log : M (list event) := fun s => (Return (log s), s).

Definition get_tmpdir : M (str -> staging) := fun s => (Return (tmpdir s), s).

Definition get_user : M who := fun s => (Return (user s), s).

(** What the HTTP layer makes of a handler's outcome: an [HTTPException]
    gives its own status, any other exception the generic 500. *)
Definition http_status {A} (o : outcome A) : Z :=
  match o with
  | Return _ => 200
  | Raise (HTTPException c _) => c
  | Raise _ => 500
  end.

Definition http_detail {A} (o : outcome A) : option str :=
  match o with
  | Raise (HTTPException _ d) => Some d
  | _ => None
  end.

(** ** server.py *)

Record FileResponse := {
  path : str;
  media_type : str;
  filename : str;
  headers : list (str * str)
}.

Record health := {
  status : str;
  piper_found : bool;
  piper_executable : bool;
  model_found : bool;
  piper_path : str;
  model_path : str;
  platform : str;
  working_directory : str;
  files_in_directory : list str
}.

(** [str(e)]: Starlette renders an [HTTPException] as
    ["{status_code}: {detail}"]; an [OSError] carries its message. *)
Definition str_exn (env : Env) (e : exn) : str :=
  match e with
  | HTTPException c d => str_of_Z c ++ lit ": " ++ d
  | OSError msg => msg
  | _ => describe env e
  end.

(** The argument that follows [flag] on a command line. *)
Fixpoint arg_after (flag : str) (argv : list str) : option str :=
  match argv with
  | a :: rest =>
    if bool_decide (a = flag) then head rest else arg_after flag rest
  | [] => None
  end.

(** How many times [os.unlink] has been called so far. *)
Fixpoint unlink_attempts (l : list event) : nat :=
  match l with
  | [] => 0
  | Unlink _ _ :: l' => S (unlink_attempts l')
  | _ :: l' => unlink_attempts l'
  end.

Section Server.

Variable env : Env.

(** Lines 16-26. *)
Definition IS_WINDOWS : bool :=
  bool_decide (platform_system env = lit "Windows").

Definition PIPER_PATH : str :=
  if IS_WINDOWS then lit "C:/Users/User/Documents/piper/piper.exe"
  else lit "./piper".

Definition MODEL_PATH : str :=
  if IS_WINDOWS then lit "C:/Users/User/Documents/piper/exported_model.onnx"
  else lit "./exported_model.onnx".

(** *** The library calls the handlers make *)

Definition os_path_exists (p : str) : M bool :=
  g ← get_fs;
  mret (match g !! p with Some _ => true | None => false end).

(** [os.access(p, os.X_OK)]: the permission bits of the file against
    the user the server runs as. *)
Definition os_access_X_OK (p : str) : M bool :=
  g ← get_fs;
  u ← get_user;
  mret (match g !! p with Some f => may_execute u (mode f) | None => false end).

Definition os_path_getsize (p : str) : M nat :=
  g ← get_fs;
  match g !! p with
  | Some f => mret (size_of f)
  | None => raise (OSError (lit "[Errno 2] No such file or directory: '"
                            ++ p ++ lit "'"))
  end.

Definition os_chmod (p : str) (bits : N) : M unit :=
  g ← get_fs;
  match chmod_refused env, g !! p with
  | Some msg, _ => emit (Chmod p false);; raise (OSError msg)
  | None, None =>
    emit (Chmod p false);;
    raise (OSError (lit "[Errno 2] No such file or directory: '"
                    ++ p ++ lit "'"))
  | None, Some f =>
    set_fs (insert p (File (data f) bits));; emit (Chmod p true)
  end.

(** [os.unlink]: fails when the host refuses, or when the file is not
    there. *)
Definition os_unlink (p : str) : M unit :=
  l ← get_log;
  g ← get_fs;
  match unlink_refused env (unlink_attempts l), g !! p with
  | Some msg, _ => emit (Unlink p false);; raise (OSError msg)
  | None, None =>
    emit (Unlink p false);;
    raise (OSError (lit "[Errno 2] No such file or directory: '"
                    ++ p ++ lit "'"))
  | None, Some _ => set_fs (delete p);; emit (Unlink p true)
  end.

(** Lines 78-80: [NamedTemporaryFile(mode='w', suffix=..., delete=False,
    encoding='utf-8')], the text written to it, and its name.  When the
    file cannot be created the exception leaves nothing behind; when the
    write or the close fails, the [with] block closes the file and lets
    the exception through, and the file stays. *)
Definition NamedTemporaryFile_write (suffix text : str) : M str :=
  let name := temp_stem env ++ suffix in
  t ← get_tmpdir;
  match t text with
  | Stored =>
    set_fs (insert name (File (Text text) 384));;
    emit (Created name);;
    mret name
  | NotCreated msg => raise (OSError msg)
  | NotWritten e kept =>
    set_fs (insert name (File (Text kept) 384));;
    emit (Created name);;
    raise e
  end.

(** [open(p, 'r', encoding='utf-8')] *)
Definition open_r (p : str) : M payload :=
  g ← get_fs;
  match g !! p with
  | Some f => mret (data f)
  | None => raise (OSError (lit "[Errno 2] No such file or directory: '"
                            ++ p ++ lit "'"))
  end.

(** [subprocess.run(argv, stdin=..., stdout=PIPE, stderr=PIPE,
    check=True, timeout=...)], the timeout in seconds. *)
Definition subprocess_run (argv : list str) (stdin : payload) (timeout : N)
  : M child :=
  emit (Spawned argv);;
  let r := engine env argv stdin in
  match proc r with
  | NotStarted msg => raise (OSError msg)
  | Started c =>
    match artifact r, arg_after (lit "--output_file") argv with
    | Some b, Some p => set_fs (insert p (File (Binary b) 420))
    | _, _ => mret tt
    end;;
    if timeout * 1000 <? elapsed_ms c then raise (TimeoutExpired argv timeout)
    else if negb (returncode c =? 0)%Z
    then raise (CalledProcessError (returncode c) argv (stderr c))
    else mret c
  end.

Definition bytes_decode (b : bytes) : M str :=
  match decode b with
  | Some s => mret s
  | None => raise (UnicodeDecodeError b)
  end.

Definition time_sleep (ms : N) : M unit := mret tt.

(** *** GET /health (lines 41-64) *)

Definition health_check : M health :=
  piper_exists ← os_path_exists PIPER_PATH;
  model_exists ← os_path_exists MODEL_PATH;
  piper_executable ←
    (if negb IS_WINDOWS && piper_exists
     then os_access_X_OK PIPER_PATH
     else mret true);
  let status :=
    if piper_exists && model_exists && piper_executable
    then lit "healthy" else lit "unhealthy" in
  mret {| status := status;
          piper_found := piper_exists;
          piper_executable := piper_executable;
          model_found := model_exists;
          piper_path := PIPER_PATH;
          model_path := MODEL_PATH;
          platform := platform_system env;
          working_directory := cwd env;
          files_in_directory := default [] (cwd_listing env) |}.

(** *** POST /synthesize (lines 66-152) *)

(** Lines 124-128 and 148-152: [try: os.unlink(p) except: pass]. *)
Definition cleanup (p : str) : M unit :=
  try_except (os_unlink p) (fun _ => mret tt).

(** Lines 89-94: on Linux the engine is made executable; a refusal is
    only reported. *)
Definition make_executable : M unit :=
  if negb IS_WINDOWS then
    try_except (os_chmod PIPER_PATH 493)
      (fun e => print (lit "Warning: Could not make piper executable: "
                       ++ str_exn env e))
  else mret tt.

(** Lines 83-138, the body of the [try]. *)
Definition attempt (output_file temp_file_path : str) : M FileResponse :=
  piper_exists ← os_path_exists PIPER_PATH;
  if negb piper_exists then
    raise (HTTPException 500
             (lit "Piper executable not found at " ++ PIPER_PATH))
  else
  model_exists ← os_path_exists MODEL_PATH;
  if negb model_exists then
    raise (HTTPException 500 (lit "Model file not found at " ++ MODEL_PATH))
  else
  make_executable;;
  input_file ← open_r temp_file_path;
  result ← subprocess_run
              [PIPER_PATH; lit "--model"; MODEL_PATH;
               lit "--output_file"; output_file]
              input_file 30;
  out ← bytes_decode (stdout result);
  print (lit "Piper stdout: " ++ out);;
  err ← bytes_decode (stderr result);
  print (lit "Piper stderr: " ++ err);;
  generated ← os_path_exists output_file;
  if negb generated then
    raise (HTTPException 500 (lit "Audio file was not generated"))
  else
  file_size ← os_path_getsize output_file;
  print (lit "Generated audio file size: "
         ++ str_of_Z (Z.of_nat file_size) ++ lit " bytes");;
  if (file_size <? 1000)%nat then
    raise (HTTPException 500
             (lit "Generated audio file appears to be empty or corrupted"))
  else
  time_sleep 100;;
  cleanup temp_file_path;;
  mret {| path := output_file;
          media_type := lit "audio/wav";
          filename := lit "speech_" ++ take 8 (uuid_filename env)
                      ++ lit ".wav";
          headers := [(lit "Content-Disposition", lit "attachment");
                      (lit "Cache-Control", lit "no-cache")] |}.

(** Lines 140-146, the [except] clauses in their order. *)
Definition handler (e : exn) : M FileResponse :=
  match e with
  | TimeoutExpired _ _ =>
    raise (HTTPException 500 (lit "Speech synthesis timed out"))
  | CalledProcessError _ _ captured =>
    error_msg ← (if truthy captured then bytes_decode captured
                 else mret (str_exn env e));
    raise (HTTPException 500 (lit "Piper execution failed: " ++ error_msg))
  | _ => raise (HTTPException 500 (lit "Error: " ++ str_exn env e))
  end.

Definition synthesize (text : str) : M FileResponse :=
  if negb (truthy (strip text)) then
    raise (HTTPException 400 (lit "Text cannot be empty"))
  else
  if (1000 <? len text)%nat then
    raise (HTTPException 400 (lit "Text too long (max 1000 characters)"))
  else
  let output_file := lit "output_" ++ uuid_output env ++ lit ".wav" in
  temp_file_path ← NamedTemporaryFile_write (lit ".txt") text;
  try_finally
    (try_except (attempt output_file temp_file_path) handler)
    (cleanup temp_file_path).

End Server.

(** ** Vocabulary for the runs of a request *)

(** The names a request works with. *)
Definition temp_path (env : Env) : str := temp_stem env ++ lit ".txt".

Definition output_path (env : Env) : str :=
  lit "output_" ++ uuid_output env ++ lit ".wav".

Definition command (env : Env) : list str :=
  [PIPER_PATH env; lit "--model"; MODEL_PATH env;
   lit "--output_file"; output_path env].

Definition invocation (env : Env) (text : str) : engine_run :=
  engine env (command env) (Text text).

(** The part of the state the properties below speak about: files and
    system calls. *)
Definition world : Type := gmap str file * list event.

Definition world_of (s : state) : world := (fs s, log s).

(** After lines 78-80. *)
Definition staged (env : Env) (text : str) (fs0 : gmap str file) : world :=
  (<[temp_path env := File (Text text) 384]> fs0, [Created (temp_path env)]).

(** After lines 89-94. *)
Definition primed (env : Env) (w : world) : world :=
  if negb (IS_WINDOWS env) then
    match chmod_refused env, w.1 !! PIPER_PATH env with
    | None, Some f =>
      (<[PIPER_PATH env := File (data f) 493]> w.1,
       w.2 ++ [Chmod (PIPER_PATH env) true])
    | _, _ => (w.1, w.2 ++ [Chmod (PIPER_PATH env) false])
    end
  else w.

(** After [subprocess.run] was called, and after a started engine is
    done. *)
Definition launched (env : Env) (w : world) : world :=
  (w.1, w.2 ++ [Spawned (command env)]).

Definition finished (env : Env) (text : str) (w : world) : world :=
  (match artifact (invocation env text) with
   | Some b => <[output_path env := File (Binary b) 420]> w.1
   | None => w.1
   end, w.2).

(** One [try: os.unlink(p) except: pass]. *)
Definition unlinked (env : Env) (p : str) (w : world) : world :=
  match unlink_refused env (unlink_attempts w.2), w.1 !! p with
  | None, Some _ => (delete p w.1, w.2 ++ [Unlink p true])
  | _, _ => (w.1, w.2 ++ [Unlink p false])
  end.

(** What [subprocess.run] returns or raises. *)
Definition run_result (env : Env) (text : str) : outcome child :=
  match proc (invocation env text) with
  | NotStarted msg => Raise (OSError msg)
  | Started c =>
    if 30 * 1000 <? elapsed_ms c
    then Raise (TimeoutExpired (command env) 30)
    else if negb (returncode c =? 0)%Z
    then Raise (CalledProcessError (returncode c) (command env) (stderr c))
    else Return c
  end.

Definition after_run (env : Env) (text : str) (w : world) : world :=
  match proc (invocation env text) with
  | NotStarted _ => launched env w
  | Started _ => finished env text (launched env w)
  end.

(** The file at the output path once a started engine is done. *)
Definition produced (env : Env) (text : str) (fs0 : gmap str file)
  : option file :=
  match artifact (invocation env text) with
  | Some b => Some (File (Binary b) 420)
  | None => fs0 !! output_path env
  end.

(** The ways out of a request that passed validation. *)
Inductive exit :=
| PiperMissing
| ModelMissing
| LaunchFailed (msg : str)
| TimedOut (c : child)
| EngineFailed (c : child)
| Garbled (c : child) (b : bytes)
| NotGenerated (c : child)
| Suspect (c : child) (f : file)
| Served (c : child) (f : file).

Definition exit_of (env : Env) (text : str) (fs0 : gmap str file) : exit :=
  match fs0 !! PIPER_PATH env with
  | None => PiperMissing
  | Some _ =>
  match fs0 !! MODEL_PATH env with
  | None => ModelMissing
  | Some _ =>
  match proc (invocation env text) with
  | NotStarted msg => LaunchFailed msg
  | Started c =>
    if 30 * 1000 <? elapsed_ms c then TimedOut c
    else if negb (returncode c =? 0)%Z then EngineFailed c
    else
    match decode (stdout c) with
    | None => Garbled c (stdout c)
    | Some _ =>
    match decode (stderr c) with
    | None => Garbled c (stderr c)
    | Some _ =>
    match produced env text fs0 with
    | None => NotGenerated c
    | Some f => if (size_of f <? 1000)%nat then Suspect c f else Served c f
    end end end
  end end end.

(** Line 146. *)
Definition wrapped (env : Env) (e : exn) : exn :=
  HTTPException 500 (lit "Error: " ++ str_exn env e).

Definition served_response (env : Env) : FileResponse :=
  {| path := output_path env;
     media_type := lit "audio/wav";
     filename := lit "speech_" ++ take 8 (uuid_filename env) ++ lit ".wav";
     headers := [(lit "Content-Disposition", lit "attachment");
                 (lit "Cache-Control", lit "no-cache")] |}.

Definition reply (env : Env) (x : exit) : outcome FileResponse :=
  match x with
  | PiperMissing =>
    Raise (wrapped env (HTTPException 500
             (lit "Piper executable not found at " ++ PIPER_PATH env)))
  | ModelMissing =>
    Raise (wrapped env (HTTPException 500
             (lit "Model file not found at " ++ MODEL_PATH env)))
  | LaunchFailed msg => Raise (wrapped env (OSError msg))
  | TimedOut _ => Raise (HTTPException 500 (lit "Speech synthesis timed out"))
  | EngineFailed c =>
    if truthy (stderr c) then
      match decode (stderr c) with
      | Some msg =>
        Raise (HTTPException 500 (lit "Piper execution failed: " ++ msg))
      | None => Raise (UnicodeDecodeError (stderr c))
      end
    else
      Raise (HTTPException 500
               (lit "Piper execution failed: "
                ++ describe env
                     (CalledProcessError (returncode c) (command env)
                        (stderr c))))
  | Garbled _ b => Raise (wrapped env (UnicodeDecodeError b))
  | NotGenerated _ =>
    Raise (wrapped env (HTTPException 500
             (lit "Audio file was not generated")))
  | Suspect _ _ =>
    Raise (wrapped env (HTTPException 500
             (lit "Generated audio file appears to be empty or corrupted")))
  | Served _ _ => Return (served_response env)
  end.

(** Files and system calls when the [finally] clause is reached. *)
Definition before_finally (env : Env) (text : str) (fs0 : gmap str file)
  : world :=
  let w1 := staged env text fs0 in
  match exit_of env text fs0 with
  | PiperMissing | ModelMissing => w1
  | Served _ _ =>
    unlinked env (temp_path env) (after_run env text (primed env w1))
  | _ => after_run env text (primed env w1)
  end.

(** What the caller gets, and the files and system calls the request
    leaves behind, starting from the files [fs0] on a host whose
    temporary directory stores the text ([init]); the runs in which it
    does not start from [host]. *)
Definition response (env : Env) (text : str) (fs0 : gmap str file)
  : outcome FileResponse :=
  (synthesize env text (init fs0)).1.

Definition aftermath (env : Env) (text : str) (fs0 : gmap str file)
  : world :=
  world_of (synthesize env text (init fs0)).2.

Definition accepted (text : str) : Prop :=
  truthy (strip text) = true /\ (len text <= 1000)%nat.

(** Logs without any [os.unlink]. *)
Definition untouched (l : list event) : Prop :=
  Forall (fun ev => match ev with Unlink _ _ => False | _ => True end) l.

(** Successful deletions of [p] recorded in a log. *)
Definition deletions (p : str) (l : list event) : nat :=
  count_occ event_eq_dec l (Unlink p true).

(** A world in which the staged input is still there and was never
    unlinked. *)
Definition pristine (env : Env) (text : str) (w : world) : Prop :=
  w.1 !! temp_path env = Some (File (Text text) 384) /\ untouched w.2.

(** The request got as far as calling [subprocess.run]. *)
Definition engine_invoked (env : Env) (text : str) (fs0 : gmap str file)
  : Prop :=
  exists argv, Spawned argv ∈ (aftermath env text fs0).2.

(** Decidable form of [contains]. *)
Fixpoint occurs (needle hay : str) : bool :=
  bool_decide (needle `prefix_of` hay)
  || match hay with
     | [] => false
     | _ :: hay' => occurs needle hay'
     end.

(** ** Concrete hosts and requests *)

(** How CPython words the exceptions met in the runs below. *)
Definition cpython_describe (e : exn) : str :=
  match e with
  | UnicodeDecodeError _ =>
    lit "'utf-8' codec can't decode byte 0xff in position 0: invalid start byte"
  | CalledProcessError _ _ _ =>
    lit "Command '['./piper', '--model', './exported_model.onnx', '--output_file', 'output_3f2b8c1e-7d4a-4e6f-9b0a-5c1d2e3f4a5b.wav']' returned non-zero exit status 1."
  | TimeoutExpired _ _ =>
    lit "Command '['./piper', '--model', './exported_model.onnx', '--output_file', 'output_3f2b8c1e-7d4a-4e6f-9b0a-5c1d2e3f4a5b.wav']' timed out after 30 seconds"
  | _ => []
  end.

(** A Linux deployment whose engine behaves as [run] says and whose
    unlink calls fail as [refuse] says. *)
Definition linux_host (run : engine_run) (refuse : nat -> option str) : Env :=
  {| platform_system := lit "Linux";
     cwd := lit "/app";
     cwd_listing :=
       Some [lit "piper"; lit "exported_model.onnx"; lit "server.py"];
     temp_stem := lit "/tmp/tmpk3v9x2ab";
     uuid_output := lit "3f2b8c1e-7d4a-4e6f-9b0a-5c1d2e3f4a5b";
     uuid_filename := lit "9a1c0b7e5d2f4c3a8e6b1f0d7c9a2b4e";
     chmod_refused := None;
     unlink_refused := refuse;
     engine := fun _ _ => run;
     describe := cpython_describe |}.

Definition never : nat -> option str := fun _ => None.

(** The engine and the model installed next to the server, or nothing. *)
Definition installed : gmap str file :=
  <[lit "./piper" := File (Binary []) 420]>
    (<[lit "./exported_model.onnx" := File (Binary []) 420]> ∅).

Definition hello : str := lit "Hello world".

(** 1001 letters, and 1001 spaces. *)
Definition long_text : str := replicate 1001 65.

Definition long_blank : str := replicate 1001 32.

(** An engine finishing in two seconds with the given exit status,
    streams and artifact. *)
Definition quick (rc : Z) (out err : bytes) (wave : option bytes)
  : engine_run :=
  {| proc := Started (Child 2000 rc out err); artifact := wave |}.

Definition hung : engine_run :=
  {| proc := Started (Child 45000 0 [] []); artifact := None |}.

(** Hosts whose engine: never finishes; fails saying "oops"; fails
    saying the byte ff; succeeds with 999 bytes of audio; succeeds with
    10 bytes of audio while printing the byte ff; succeeds without
    leaving a file; succeeds with 1000 bytes of audio. *)
Definition stalling_host : Env := linux_host hung never.

Definition failing_host : Env :=
  linux_host (quick 1 [] [x6f; x6f; x70; x73] None) never.

Definition garbling_host : Env := linux_host (quick 1 [] [xff] None) never.

Definition suspect_host : Env :=
  linux_host (quick 0 [] [] (Some (replicate 999 x00))) never.

Definition noisy_host : Env :=
  linux_host (quick 0 [xff] [] (Some (replicate 10 x00))) never.

Definition silent_host : Env := linux_host (quick 0 [] [] None) never.

Definition working_host : Env :=
  linux_host (quick 0 [] [] (Some (replicate 1000 x00))) never.

(** The same host, except for which unlink calls it refuses. *)
Definition with_unlink_refused (refuse : nat -> option str) (env : Env)
  : Env :=
  {| platform_system := platform_system env;
     cwd := cwd env;
     cwd_listing := cwd_listing env;
     temp_stem := temp_stem env;
     uuid_output := uuid_output env;
     uuid_filename := uuid_filename env;
     chmod_refused := chmod_refused env;
     unlink_refused := refuse;
     engine := engine env;
     describe := describe env |}.

(** Temporary directories: on a full disk the file is created and the
    flush at close fails; a directory that is not there takes nothing. *)
Definition full_disk : str -> staging :=
  fun _ => NotWritten (OSError (lit "[Errno 28] No space left on device")) [].

Definition missing_tmpdir : str -> staging :=
  fun _ => NotCreated (lit "[Errno 2] No usable temporary directory found").

(** A temporary directory with room, written to through CPython's strict
    UTF-8 encoder: a text holding a surrogate code point is refused by
    [write], before anything reaches the file. *)
Definition is_surrogate (c : N) : bool := (0xD800 <=? c) && (c <=? 0xDFFF).

Definition strict_encoder : str -> staging :=
  fun text =>
    if existsb is_surrogate text then NotWritten (UnicodeEncodeError text) []
    else Stored.

(** The one-character text made of the surrogate U+D800. *)
Definition lone_surrogate : str := [0xD800].

(** ** Vocabulary for further properties *)

(** Both configured files are there. *)
Definition engine_ready (env : Env) (fs0 : gmap str file) : Prop :=
  is_Some (fs0 !! PIPER_PATH env) /\ is_Some (fs0 !! MODEL_PATH env).

#[global] Instance engine_ready_dec env fs0 : Decision (engine_ready env fs0).
Proof. unfold engine_ready. apply _. Defined.

(** Everything lines 83-118 ask for before the artifact is served. *)
Definition servable (env : Env) (text : str) (fs0 : gmap str file) : Prop :=
  engine_ready env fs0
  /\ exists c f,
       proc (invocation env text) = Started c
       /\ elapsed_ms c <= 30 * 1000
       /\ returncode c = 0%Z
       /\ is_Some (decode (stdout c))
       /\ is_Some (decode (stderr c))
       /\ produced env text fs0 = Some f
       /\ (1000 <= size_of f)%nat.

Definition is_served (o : outcome FileResponse) : bool :=
  match o with Return _ => true | Raise _ => false end.

(** The [os.chmod] calls of a request that gets that far. *)
Definition chmod_events (env : Env) : list event :=
  if IS_WINDOWS env then []
  else [Chmod (PIPER_PATH env) (bool_decide (chmod_refused env = None))].

(** The same host, except for whether it refuses [os.chmod]. *)
Definition with_chmod_refused (refuse : option str) (env : Env) : Env :=
  {| platform_system := platform_system env;
     cwd := cwd env;
     cwd_listing := cwd_listing env;
     temp_stem := temp_stem env;
     uuid_output := uuid_output env;
     uuid_filename := uuid_filename env;
     chmod_refused := refuse;
     unlink_refused := unlink_refused env;
     engine := engine env;
     describe := describe env |}.

(** A host on which the engine cannot be started. *)
Definition unstartable_host : Env :=
  linux_host
    {| proc := NotStarted (lit "[Errno 13] Permission denied: './piper'");
       artifact := None |}
    never.

(** 999 letters between two spaces: 1001 characters, 999 once
    stripped. *)
Definition padded_text : str := [32] ++ replicate 999 65 ++ [32].

(** The command lines [subprocess.run] was called with, in order. *)
Definition spawned_argvs (l : list event) : list (list str) :=
  omap (fun ev => match ev with Spawned argv => Some argv | _ => None end) l.

(** The installed files and an unrelated one. *)
Definition installed_and_notes : gmap str file :=
  <[lit "notes.txt" := File (Text (lit "remember")) 420]> installed.

(** The engine, executable, and the model. *)
Definition deployed : gmap str file :=
  <[lit "./piper" := File (Binary []) 493]>
    (<[lit "./exported_model.onnx" := File (Binary []) 420]> ∅).

(** The same host with another engine. *)
Definition with_engine (e : list str -> payload -> engine_run) (env : Env)
  : Env :=
  {| platform_system := platform_system env;
     cwd := cwd env;
     cwd_listing := cwd_listing env;
     temp_stem := temp_stem env;
     uuid_output := uuid_output env;
     uuid_filename := uuid_filename env;
     chmod_refused := chmod_refused env;
     unlink_refused := unlink_refused env;
     engine := e;
     describe := describe env |}.

(** An engine that produces audio only for the text " hi ", spaces
    included, and fails on any other input. *)
Definition picky_engine (argv : list str) (stdin : payload) : engine_run :=
  match stdin with
  | Text s =>
    if bool_decide (s = lit " hi ")
    then quick 0 [] [] (Some (replicate 1000 x00))
    else quick 1 [] [] None
  | Binary _ => quick 1 [] [] None
  end.

Definition picky_host : Env := with_engine picky_engine working_host.

(** A host that refuses the first unlink of a request and no other. *)
Definition first_only : nat -> option str :=
  fun n => match n with
           | O => Some (lit "[Errno 13] Permission denied")
           | S _ => None
           end.

Definition grudging_host (run : engine_run) : Env := linux_host run first_only.

(** ** Runs of [synthesize], way out by way out *)

Arguments lit : simpl never.
Arguments str_of_Z : simpl never.
Arguments decode : simpl never.
Arguments strip : simpl never.

(** The four names end differently, so no two of them coincide. *)
Lemma last_temp_path env : last (temp_path env) = Some 116.
Proof. unfold temp_path. by rewrite last_app. Qed.

Lemma last_output_path env : last (output_path env) = Some 118.
Proof. unfold output_path. by rewrite !last_app. Qed.

Lemma last_PIPER_PATH env :
  last (PIPER_PATH env) = Some (if IS_WINDOWS env then 101 else 114).
Proof. unfold PIPER_PATH. by destruct (IS_WINDOWS env). Qed.

Lemma last_MODEL_PATH env : last (MODEL_PATH env) = Some 120.
Proof. unfold MODEL_PATH. by destruct (IS_WINDOWS env). Qed.

Lemma temp_ne_output env : temp_path env <> output_path env.
Proof.
  intros H. apply (f_equal last) in H.
  rewrite last_temp_path, last_output_path in H. discriminate.
Qed.

Lemma temp_ne_piper env : temp_path env <> PIPER_PATH env.
Proof.
  intros H. apply (f_equal last) in H.
  rewrite last_temp_path, last_PIPER_PATH in H.
  destruct (IS_WINDOWS env); discriminate.
Qed.

Lemma temp_ne_model env : temp_path env <> MODEL_PATH env.
Proof.
  intros H. apply (f_equal last) in H.
  rewrite last_temp_path, last_MODEL_PATH in H. discriminate.
Qed.

Lemma piper_ne_output env : PIPER_PATH env <> output_path env.
Proof.
  intros H. apply (f_equal last) in H.
  rewrite last_output_path, last_PIPER_PATH in H.
  destruct (IS_WINDOWS env); discriminate.
Qed.

Create HintDb paths.
#[local] Hint Resolve temp_ne_output temp_ne_piper temp_ne_model
  piper_ne_output : paths.
#[local] Hint Extern 1 (_ <> _) => apply not_eq_sym : paths.

Lemma arg_after_command env :
  arg_after (lit "--output_file") (command env) = Some (output_path env).
Proof.
  unfold command, PIPER_PATH, MODEL_PATH.
  destruct (IS_WINDOWS env); reflexivity.
Qed.

(** *** What each block does to files and system calls *)

Ltac unfold_monad :=
  unfold try_except, print, emit, set_fs, get_fs, get_log, raise,
    mbind, mret, M_bind, M_ret.

Lemma cleanup_run env p s :
  exists s', cleanup env p s = (Return tt, s')
             /\ world_of s' = unlinked env p (world_of s).
Proof.
  unfold cleanup, os_unlink, unlinked, world_of. unfold_monad. cbn.
  destruct (unlink_refused env (unlink_attempts (log s)));
    [|destruct (fs s !! p)]; cbn; eexists; split; reflexivity.
Qed.

Lemma make_executable_run env s :
  exists s', make_executable env s = (Return tt, s')
             /\ world_of s' = primed env (world_of s).
Proof.
  unfold make_executable, os_chmod, primed, world_of. unfold_monad. cbn.
  destruct (negb (IS_WINDOWS env)); cbn; [|eexists; split; reflexivity].
  destruct (chmod_refused env);
    [|destruct (fs s !! PIPER_PATH env)]; cbn; eexists; split; reflexivity.
Qed.

Lemma subprocess_run_run env text s :
  exists s', subprocess_run env (command env) (Text text) 30 s
             = (run_result env text, s')
             /\ world_of s' = after_run env text (world_of s).
Proof.
  unfold subprocess_run, run_result, after_run, finished, launched,
    world_of.
  rewrite arg_after_command. fold (invocation env text). unfold_monad. cbn.
  destruct (proc (invocation env text)) as [c|msg]; cbn;
    [|eexists; split; reflexivity].
  destruct (artifact (invocation env text)); cbn;
    destruct (30 * 1000 <? elapsed_ms c);
    try destruct (negb (returncode c =? 0)%Z);
    eexists; split; reflexivity.
Qed.

(** *** Lookups in the worlds a request goes through *)

Lemma primed_fst_lookup env w p :
  p <> PIPER_PATH env -> (primed env w).1 !! p = w.1 !! p.
Proof.
  intros Hp. unfold primed.
  destruct (negb (IS_WINDOWS env)); [|done].
  destruct (chmod_refused env); [done|].
  destruct (w.1 !! PIPER_PATH env); [|done].
  cbn. by rewrite lookup_insert_ne.
Qed.

Lemma staged_lookup_temp env text fs0 :
  (primed env (staged env text fs0)).1 !! temp_path env
  = Some (File (Text text) 384).
Proof.
  rewrite primed_fst_lookup by auto with paths.
  apply lookup_insert_eq.
Qed.

Lemma after_run_lookup_output env text fs0 c :
  proc (invocation env text) = Started c ->
  (after_run env text (primed env (staged env text fs0))).1
    !! output_path env = produced env text fs0.
Proof.
  intros Hc. unfold after_run, finished, launched, produced. rewrite Hc.
  cbn. destruct (artifact (invocation env text)).
  - apply lookup_insert_eq.
  - rewrite primed_fst_lookup by auto with paths.
    cbn. apply lookup_insert_ne. auto with paths.
Qed.

Ltac red_server :=
  cbn -[lit str_of_Z arg_after N.mul N.ltb Nat.ltb decode strip command
        output_path temp_path lookup insert delete truthy Z.eqb
        exit_of before_finally reply unlinked make_executable
        subprocess_run cleanup primed staged after_run run_result
        world_of].

Ltac known :=
  repeat match goal with
         | H : ?x = _ |- context [match ?x with _ => _ end] => rewrite H
         end.

(** Closes one way out: the reply and the world are read off. *)
Ltac way_out :=
  eexists; split;
  [ unfold handler, bytes_decode, raise, mbind, mret, M_bind, M_ret;
    unfold exit_of, reply, wrapped; red_server; known; red_server;
    known; reflexivity
  | unfold before_finally, exit_of; red_server; known; red_server;
    known; try assumption; try reflexivity ].

Lemma guarded_run env text fs0 s :
  world_of s = staged env text fs0 ->
  exists s',
    try_except (attempt env (output_path env) (temp_path env)) (handler env) s
    = (reply env (exit_of env text fs0), s')
    /\ world_of s' = before_finally env text fs0.
Proof.
  intros Hw. pose proof Hw as [= Hfs Hlog].
  unfold try_except at 1.
  unfold attempt, os_path_exists, open_r, os_path_getsize, time_sleep.
  unfold print, get_fs, mbind, mret, M_bind, M_ret.
  fold (command env). unfold raise at 1 2.
  red_server.
  rewrite Hfs, !lookup_insert_ne by auto with paths.
  destruct (fs0 !! PIPER_PATH env) as [fp|] eqn:HP; red_server;
    [|way_out].
  rewrite Hfs, !lookup_insert_ne by auto with paths.
  destruct (fs0 !! MODEL_PATH env) as [fm|] eqn:HM; red_server;
    [|way_out].
  destruct (make_executable_run env s) as (s2 & -> & W2).
  rewrite Hw in W2.
  assert (Htmp : fs s2 !! temp_path env = Some (File (Text text) 384)).
  { change (fs s2) with (world_of s2).1. rewrite W2.
    apply staged_lookup_temp. }
  red_server. rewrite Htmp. red_server.
  destruct (subprocess_run_run env text s2) as (s3 & -> & W3).
  rewrite W2 in W3.
  unfold run_result.
  destruct (proc (invocation env text)) as [c|msg] eqn:Hproc; red_server;
    [|way_out].
  destruct (30 * 1000 <? elapsed_ms c) eqn:Htime; red_server; [way_out|].
  destruct (negb (returncode c =? 0)%Z) eqn:Hrc; red_server.
  { unfold handler, bytes_decode, raise, mbind, mret, M_bind, M_ret.
    destruct (truthy (stderr c)) eqn:Herr; red_server;
      [destruct (decode (stderr c)) eqn:Hdec|]; way_out. }
  unfold bytes_decode at 1. unfold raise at 1. unfold mret, M_ret.
  destruct (decode (stdout c)) as [out|] eqn:Hout; red_server; [|way_out].
  unfold bytes_decode at 1. unfold raise at 1. unfold mret, M_ret.
  destruct (decode (stderr c)) as [err|] eqn:Herr; red_server; [|way_out].
  assert (Hgen : fs s3 !! output_path env = produced env text fs0).
  { change (fs s3) with (world_of s3).1. rewrite W3.
    by apply after_run_lookup_output with c. }
  unfold raise. rewrite Hgen.
  destruct (produced env text fs0) as [f|] eqn:Hf; red_server; [|way_out].
  rewrite Hgen. red_server.
  destruct (size_of f <? 1000)%nat eqn:Hsize; red_server; [way_out|].
  match goal with
  | |- context [cleanup env ?p ?st] =>
    destruct (cleanup_run env p st) as (s4 & -> & W4)
  end.
  change (world_of (State _ _ _ _ _)) with (world_of s3) in W4.
  rewrite W3 in W4. way_out.
Qed.

(** *** The whole request *)

Lemma synthesize_empty env text s :
  truthy (strip text) = false ->
  synthesize env text s
  = (Raise (HTTPException 400 (lit "Text cannot be empty")), s).
Proof. intros H. unfold synthesize. by rewrite H. Qed.

Lemma synthesize_too_long env text s :
  truthy (strip text) = true -> (1000 < len text)%nat ->
  synthesize env text s
  = (Raise (HTTPException 400 (lit "Text too long (max 1000 characters)")),
     s).
Proof.
  intros H Hlen. unfold synthesize. rewrite H.
  by apply Nat.ltb_lt in Hlen as ->.
Qed.

(** A request whose text the temporary directory stores. *)
Lemma synthesize_stored env text s :
  accepted text -> tmpdir s text = Stored -> log s = [] ->
  (synthesize env text s).1 = reply env (exit_of env text (fs s))
  /\ world_of (synthesize env text s).2
     = unlinked env (temp_path env) (before_finally env text (fs s)).
Proof.
  intros [Hne Hlen] Ht Hlog. unfold synthesize.
  rewrite Hne. apply Nat.ltb_ge in Hlen as ->. cbn [negb].
  unfold NamedTemporaryFile_write, try_finally, get_tmpdir.
  unfold emit, set_fs, mbind, mret, M_bind, M_ret. rewrite Ht.
  cbn [fs log console tmpdir user]. rewrite Hlog. cbn [app].
  fold (temp_path env) (output_path env).
  match goal with
  | |- context [try_except _ _ ?st] =>
    destruct (guarded_run env text (fs s) st) as (s1 & -> & W1);
      [reflexivity|]
  end.
  destruct (cleanup_run env (temp_path env) s1) as (s2 & -> & W2).
  cbn [fst snd]. by rewrite W2, W1.
Qed.

Lemma synthesize_run env text fs0 :
  accepted text ->
  response env text fs0 = reply env (exit_of env text fs0)
  /\ aftermath env text fs0
     = unlinked env (temp_path env) (before_finally env text fs0).
Proof.
  intros Hok. unfold response, aftermath.
  by apply (synthesize_stored env text (init fs0)).
Qed.

(** A request whose text the temporary directory does not take: the
    exception leaves the handler as it is, before the [try] is entered. *)
Lemma synthesize_not_created env text s msg :
  accepted text -> tmpdir s text = NotCreated msg ->
  synthesize env text s = (Raise (OSError msg), s).
Proof.
  intros [Hne Hlen] Ht. unfold synthesize.
  rewrite Hne. apply Nat.ltb_ge in Hlen as ->. cbn [negb].
  unfold NamedTemporaryFile_write, get_tmpdir, raise.
  unfold mbind, mret, M_bind, M_ret. by rewrite Ht.
Qed.

Lemma synthesize_not_written env text s e kept :
  accepted text -> tmpdir s text = NotWritten e kept ->
  (synthesize env text s).1 = Raise e
  /\ world_of (synthesize env text s).2
     = (<[temp_path env := File (Text kept) 384]> (fs s),
        log s ++ [Created (temp_path env)]).
Proof.
  intros [Hne Hlen] Ht. unfold synthesize.
  rewrite Hne. apply Nat.ltb_ge in Hlen as ->. cbn [negb].
  unfold NamedTemporaryFile_write, get_tmpdir, raise.
  unfold emit, set_fs, mbind, mret, M_bind, M_ret. by rewrite Ht.
Qed.

(** ** Files and system calls a request leaves behind *)

Lemma untouched_attempts l : untouched l -> unlink_attempts l = 0%nat.
Proof. induction 1 as [|[] l H _ IH]; cbn; done. Qed.

Lemma untouched_no_unlink l p ok : untouched l -> Unlink p ok ∉ l.
Proof.
  intros Hl Hin. unfold untouched in Hl. rewrite Forall_forall in Hl.
  exact (Hl _ Hin).
Qed.

Lemma untouched_deletions l p : untouched l -> deletions p l = 0%nat.
Proof.
  intros Hl. apply count_occ_not_In. rewrite <- list_elem_of_In.
  by apply untouched_no_unlink.
Qed.

Lemma untouched_snoc l ev :
  untouched l -> match ev with Unlink _ _ => False | _ => True end ->
  untouched (l ++ [ev]).
Proof. intros Hl Hev. apply Forall_app. split; [done|]. by constructor. Qed.

Lemma deletions_snoc l p q ok :
  deletions p (l ++ [Unlink q ok])
  = (deletions p l + if decide (Unlink q ok = Unlink p true) then 1 else 0)%nat.
Proof.
  unfold deletions. rewrite count_occ_app. cbn [count_occ].
  destruct (event_eq_dec (Unlink q ok) (Unlink p true)),
    (decide (Unlink q ok = Unlink p true)); done.
Qed.

Lemma attempts_snoc l p ok :
  unlink_attempts (l ++ [Unlink p ok]) = S (unlink_attempts l).
Proof. induction l as [|[] l IH]; cbn; by rewrite ?IH. Qed.

Lemma staged_pristine env text fs0 : pristine env text (staged env text fs0).
Proof.
  split; cbn; [apply lookup_insert_eq|]. by repeat constructor.
Qed.

Lemma primed_pristine env text w :
  pristine env text w -> pristine env text (primed env w).
Proof.
  intros [Hf Hl]. split.
  - by rewrite primed_fst_lookup by auto with paths.
  - unfold primed. repeat case_match; cbn; try done;
      by apply untouched_snoc.
Qed.

Lemma after_run_pristine env text w :
  pristine env text w -> pristine env text (after_run env text w).
Proof.
  intros [Hf Hl]. unfold after_run, finished, launched.
  split; repeat case_match; cbn;
    rewrite ?lookup_insert_ne by auto with paths;
    try done; by apply untouched_snoc.
Qed.

Lemma run_pristine env text fs0 :
  pristine env text (after_run env text (primed env (staged env text fs0))).
Proof. apply after_run_pristine, primed_pristine, staged_pristine. Qed.

(** The cleanup of a pristine world deletes the staged input unless the
    host refuses. *)
Lemma unlinked_pristine env text w :
  pristine env text w ->
  unlinked env (temp_path env) w
  = match unlink_refused env 0 with
    | None => (delete (temp_path env) w.1,
               w.2 ++ [Unlink (temp_path env) true])
    | Some _ => (w.1, w.2 ++ [Unlink (temp_path env) false])
    end.
Proof.
  intros [Hf Hl]. unfold unlinked.
  rewrite (untouched_attempts _ Hl), Hf. by destruct (unlink_refused env 0).
Qed.

(** Which world the [finally] clause finds. *)
Lemma before_finally_cases env text fs0 :
  let w := after_run env text (primed env (staged env text fs0)) in
  (before_finally env text fs0 = staged env text fs0
   /\ (fs0 !! PIPER_PATH env = None \/ fs0 !! MODEL_PATH env = None))
  \/ (is_Some (fs0 !! PIPER_PATH env) /\ is_Some (fs0 !! MODEL_PATH env)
      /\ (before_finally env text fs0 = w
          /\ (forall c f, exit_of env text fs0 <> Served c f)
          \/ before_finally env text fs0 = unlinked env (temp_path env) w
             /\ exists c f, exit_of env text fs0 = Served c f)).
Proof.
  unfold before_finally, exit_of.
  destruct (fs0 !! PIPER_PATH env) eqn:HP; [|left; auto].
  destruct (fs0 !! MODEL_PATH env) eqn:HM; [|left; auto].
  right. do 2 (split; [done|]).
  repeat case_match; first [left; split; [done|congruence] | right; eauto].
Qed.

Lemma accepted_dec text : accepted text \/ ~ accepted text.
Proof.
  unfold accepted. destruct (truthy (strip text)); [|right; intros []; done].
  destruct (decide (len text <= 1000)%nat); [left; done|right; tauto].
Qed.

Lemma aftermath_rejected env text fs0 :
  ~ accepted text -> aftermath env text fs0 = (fs0, []).
Proof.
  intros Hno. unfold aftermath.
  destruct (truthy (strip text)) eqn:Hne.
  - destruct (decide (len text <= 1000)%nat) as [Hle|Hgt];
      [destruct Hno; done|].
    by rewrite synthesize_too_long by (done || lia).
  - by rewrite synthesize_empty.
Qed.

(** An event that differs from every event of an explicit log is not in
    it. *)
Ltac no_such_event H :=
  repeat (apply elem_of_cons in H as [H|H]; [discriminate H|]);
  by apply elem_of_nil in H.

Lemma engine_invoked_inv env text fs0 :
  engine_invoked env text fs0 ->
  accepted text
  /\ is_Some (fs0 !! PIPER_PATH env) /\ is_Some (fs0 !! MODEL_PATH env).
Proof.
  intros [argv Hin].
  destruct (accepted_dec text) as [Hok|Hno];
    [|rewrite aftermath_rejected in Hin by done; by apply elem_of_nil in Hin].
  split; [done|].
  destruct (synthesize_run env text fs0 Hok) as [_ Hw]. rewrite Hw in Hin.
  destruct (before_finally_cases env text fs0) as [[Hb _]|(HP & HM & _)];
    [|done].
  rewrite Hb, (unlinked_pristine env text) in Hin by apply staged_pristine.
  destruct (unlink_refused env 0); cbn in Hin; no_such_event Hin.
Qed.

Lemma strip_whitespace text :
  Forall (fun c => isspace c = true) text -> strip text = [].
Proof.
  intros H. unfold strip, rstrip.
  assert (lstrip text = []) as ->; [|done].
  induction H as [|c l Hc _ IH]; cbn; [done|]. by rewrite Hc.
Qed.

Lemma occurs_prefix needle hay :
  needle `prefix_of` hay -> occurs needle hay = true.
Proof.
  intros H. destruct hay; cbn; by rewrite bool_decide_eq_true_2.
Qed.

Lemma occurs_contains needle hay :
  contains needle hay <-> occurs needle hay = true.
Proof.
  split.
  - intros (pre & post & ->).
    induction pre as [|c pre IH]; cbn.
    + apply occurs_prefix. by eexists.
    + rewrite IH. apply orb_true_r.
  - induction hay as [|c hay IH]; cbn; intros H;
      apply orb_true_iff in H as [H|H].
    + apply bool_decide_eq_true in H as [post ->]. by exists [], post.
    + done.
    + apply bool_decide_eq_true in H as [post ->]. by exists [], post.
    + destruct (IH H) as (pre & post & ->). by exists (c :: pre), post.
Qed.

Lemma contains_suffix pre s : contains s (pre ++ s).
Proof. exists pre, []. by rewrite app_nil_r. Qed.

(** ** Properties of the handlers *)

(** Decides a closed proposition by evaluation. *)
Ltac by_evaluation := apply (bool_decide_unpack _); vm_compute; exact I.

(** C3: a text that is empty once stripped, or longer than 1000
    characters, gets a 400 whose detail is "Text cannot be empty" when
    the stripped text is empty and "Text too long (max 1000 characters)"
    otherwise; the state is left exactly as it was, so no file was created
    and no process spawned. *)
Theorem invalid_text_rejected env text s :
  strip text = [] \/ (1000 < len text)%nat ->
  http_status (synthesize env text s).1 = 400%Z
  /\ http_detail (synthesize env text s).1
     = Some (if truthy (strip text)
             then lit "Text too long (max 1000 characters)"
             else lit "Text cannot be empty")
  /\ (synthesize env text s).2 = s.
Proof.
  intros H. destruct (truthy (strip text)) eqn:Hne.
  - destruct H as [H|H]; [by rewrite H in Hne|].
    by rewrite synthesize_too_long.
  - by rewrite synthesize_empty.
Qed.

Lemma invalid_text_rejected_witness :
  (strip (long_text) = [] \/ (1000 < len (long_text))%nat)
  /\ http_detail
       (synthesize stalling_host (long_text)
          (init installed)).1
     = Some (lit "Text too long (max 1000 characters)").
Proof.
  split; [right; vm_compute; lia|].
  apply (invalid_text_rejected stalling_host (long_text)
           (init installed)).
  right. vm_compute. lia.
Defined.

(** C10: a text of whitespace only gets the 400 "Text cannot be empty",
    whatever its length: the emptiness check comes first, so such a text
    never gets "Text too long". *)
Theorem whitespace_only_is_empty env text s :
  Forall (fun c => isspace c = true) text ->
  synthesize env text s
  = (Raise (HTTPException 400 (lit "Text cannot be empty")), s).
Proof.
  intros H. apply synthesize_empty. by rewrite strip_whitespace.
Qed.

Lemma whitespace_only_is_empty_witness :
  (1000 < len (long_blank))%nat
  /\ synthesize stalling_host (long_blank) (init installed)
     = (Raise (HTTPException 400 (lit "Text cannot be empty")),
        init installed).
Proof.
  split; [vm_compute; lia|].
  apply (whitespace_only_is_empty stalling_host
           (long_blank) (init installed)).
  unfold long_blank. apply Forall_replicate. reflexivity.
Defined.

Lemma healthy_ne : lit "unhealthy" <> lit "healthy".
Proof. discriminate. Qed.

(** C8: /health answers with status "healthy" exactly when the engine
    path exists, the model path exists, and the permission check passes
    (on Windows it is taken to pass; elsewhere it is [os.access] on the
    engine); the state is left exactly as it was, so nothing was changed
    or spawned. *)
Theorem health_check_healthy_iff env s :
  exists h,
    health_check env s = (Return h, s)
    /\ (status h = lit "healthy" <->
        is_Some (fs s !! PIPER_PATH env)
        /\ is_Some (fs s !! MODEL_PATH env)
        /\ (IS_WINDOWS env = true
            \/ (os_access_X_OK (PIPER_PATH env) s).1 = Return true)).
Proof.
  unfold health_check, os_path_exists, os_access_X_OK.
  unfold get_fs, get_user, mbind, mret, M_bind, M_ret. cbn.
  destruct (fs s !! PIPER_PATH env) as [fp|] eqn:HP,
    (fs s !! MODEL_PATH env) as [fm|] eqn:HM,
    (IS_WINDOWS env) eqn:HW; cbn; rewrite ?HP; cbn;
    try destruct (may_execute (user s) (mode fp)) eqn:HX; cbn;
    eexists; (split; [reflexivity|]); cbn; rewrite ?HP, ?HX; cbn; split;
    try (intros Hs; by apply healthy_ne in Hs);
    try (intros (HP' & HM' & Hx);
         first [ by apply is_Some_None in HP'
               | by apply is_Some_None in HM'
               | by destruct Hx as [[=]|[=]] ]);
    try done;
    intros _; repeat split; eauto.
Qed.

Lemma wrapped_detail_contains env code pre s :
  contains s (lit "Error: " ++ str_exn env (HTTPException code (pre ++ s))).
Proof.
  cbn [str_exn]. rewrite !app_assoc. apply contains_suffix.
Qed.

(** C7: when the text is accepted and the engine path or the model path
    does not exist, the answer is a 500 whose detail contains a
    configured path that is missing, and [subprocess.run] is never
    called. *)
Theorem missing_engine_or_model env text fs0 :
  accepted text ->
  fs0 !! PIPER_PATH env = None \/ fs0 !! MODEL_PATH env = None ->
  http_status (response env text fs0) = 500%Z
  /\ (exists missing d,
        (missing = PIPER_PATH env \/ missing = MODEL_PATH env)
        /\ fs0 !! missing = None
        /\ http_detail (response env text fs0) = Some d
        /\ contains missing d)
  /\ ~ engine_invoked env text fs0.
Proof.
  intros Hok Hmiss.
  destruct (synthesize_run env text fs0 Hok) as [-> _].
  split; [|split].
  - unfold exit_of. destruct (fs0 !! PIPER_PATH env); [|done].
    destruct Hmiss as [[=]| ->]. done.
  - unfold exit_of. destruct (fs0 !! PIPER_PATH env) eqn:HP.
    + destruct Hmiss as [[=]|HM]. rewrite HM.
      exists (MODEL_PATH env). eexists. repeat split; eauto.
      apply wrapped_detail_contains.
    + exists (PIPER_PATH env). eexists. repeat split; eauto.
      apply wrapped_detail_contains.
  - intros (_ & [? HP] & [? HM])%engine_invoked_inv.
    destruct Hmiss; congruence.
Qed.

Lemma missing_engine_or_model_witness :
  accepted hello
  /\ http_status (response stalling_host hello ∅) = 500%Z
  /\ ~ engine_invoked stalling_host hello ∅.
Proof.
  assert (Hok : accepted hello) by (split; vm_compute; [done|lia]).
  split; [exact Hok|].
  destruct (missing_engine_or_model stalling_host hello ∅ Hok)
    as (Hstatus & _ & Hquiet); [left; reflexivity|].
  exact (conj Hstatus Hquiet).
Defined.

(** C4: when the engine was invoked and ran for more than 30 seconds,
    the answer is the 500 "Speech synthesis timed out"; nothing of the
    output artifact is returned. *)
Theorem timeout_reported env text fs0 c :
  engine_invoked env text fs0 ->
  proc (invocation env text) = Started c ->
  30 * 1000 < elapsed_ms c ->
  response env text fs0
  = Raise (HTTPException 500 (lit "Speech synthesis timed out"))
  /\ forall served, response env text fs0 <> Return served.
Proof.
  intros (Hok & [fp HP] & [fm HM])%engine_invoked_inv Hproc Hlate.
  destruct (synthesize_run env text fs0 Hok) as [-> _].
  unfold exit_of. rewrite HP, HM, Hproc.
  apply N.ltb_lt in Hlate as ->. done.
Qed.

Lemma timeout_reported_witness :
  engine_invoked stalling_host hello installed
  /\ response stalling_host hello installed
     = Raise (HTTPException 500 (lit "Speech synthesis timed out")).
Proof.
  assert (Hrun : engine_invoked stalling_host hello installed)
    by (exists (command stalling_host); by_evaluation).
  split; [exact Hrun|].
  apply (timeout_reported stalling_host hello installed
           (Child 45000 0 [] []) Hrun); reflexivity.
Defined.

Lemma exit_of_completed env text fs0 c :
  engine_invoked env text fs0 ->
  proc (invocation env text) = Started c ->
  elapsed_ms c <= 30 * 1000 ->
  accepted text
  /\ exit_of env text fs0
     = if negb (returncode c =? 0)%Z then EngineFailed c
       else match decode (stdout c) with
            | None => Garbled c (stdout c)
            | Some _ =>
              match decode (stderr c) with
              | None => Garbled c (stderr c)
              | Some _ =>
                match produced env text fs0 with
                | None => NotGenerated c
                | Some f =>
                  if (size_of f <? 1000)%nat then Suspect c f
                  else Served c f
                end
              end
            end.
Proof.
  intros (Hok & [fp HP] & [fm HM])%engine_invoked_inv Hproc Hintime.
  split; [done|]. unfold exit_of. rewrite HP, HM, Hproc.
  by apply N.ltb_ge in Hintime as ->.
Qed.

(** X18: when the engine was invoked and exited in time with a non-zero
    status, the answer is a 500; its detail is "Piper execution failed: "
    followed by the captured standard error decoded as UTF-8 when that is
    not empty and decodes, and by the description of the
    [CalledProcessError] when it is empty. *)
Theorem engine_failure_reported env text fs0 c :
  engine_invoked env text fs0 ->
  proc (invocation env text) = Started c ->
  elapsed_ms c <= 30 * 1000 ->
  returncode c <> 0%Z ->
  http_status (response env text fs0) = 500%Z
  /\ (stderr c = [] ->
      http_detail (response env text fs0)
      = Some (lit "Piper execution failed: "
              ++ describe env
                   (CalledProcessError (returncode c) (command env) [])))
  /\ (forall msg,
        stderr c <> [] -> decode (stderr c) = Some msg ->
        http_detail (response env text fs0)
        = Some (lit "Piper execution failed: " ++ msg)).
Proof.
  intros Hrun Hproc Hintime Hrc.
  destruct (exit_of_completed env text fs0 c Hrun Hproc Hintime)
    as [Hok Hexit].
  destruct (synthesize_run env text fs0 Hok) as [-> _]. rewrite Hexit.
  apply Z.eqb_neq in Hrc as ->. cbn [negb reply].
  split; [|split].
  - destruct (truthy (stderr c)); [destruct (decode (stderr c))|]; done.
  - intros ->. done.
  - intros msg Hne ->. by destruct (stderr c).
Qed.

Lemma engine_failure_reported_witness :
  engine_invoked failing_host hello installed
  /\ http_detail (response failing_host hello installed)
     = Some (lit "Piper execution failed: oops").
Proof.
  assert (Hrun : engine_invoked failing_host hello installed)
    by (exists (command failing_host); by_evaluation).
  split; [exact Hrun|].
  destruct (engine_failure_reported failing_host hello installed
              (Child 2000 1 [] [x6f; x6f; x70; x73]) Hrun)
    as (_ & _ & Hdetail);
    [reflexivity|vm_compute; discriminate|discriminate|].
  apply (Hdetail (lit "oops")); [discriminate|reflexivity].
Defined.

(** C5 at a run it is about: the engine exits with status 1 and the
    single byte ff on its standard error, which is not UTF-8.  Line 143
    sets out to report the captured standard error, but its strict
    [decode] raises inside the [except] clause, where no other clause
    catches it: the caller gets the bare [UnicodeDecodeError], an answer
    without any detail. *)
Lemma undecodable_stderr_loses_detail :
  engine_invoked garbling_host hello installed
  /\ (exists c,
        proc (invocation garbling_host hello)
        = Started c
        /\ elapsed_ms c <= 30 * 1000
        /\ returncode c <> 0%Z
        /\ stderr c = [xff])
  /\ response garbling_host hello installed
     = Raise (UnicodeDecodeError [xff])
  /\ http_detail
       (response garbling_host hello installed)
     = None.
Proof.
  split; [exists (command garbling_host); by_evaluation|].
  split; [eexists; repeat split; [vm_compute; discriminate|discriminate]|].
  split; vm_compute; reflexivity.
Qed.

(** X19: when the engine was invoked and exited in time with status
    zero, and the file at the output path is smaller than 1000 bytes, the
    answer is a 500 and never the artifact; when moreover the captured
    standard output and standard error decode as UTF-8, the detail
    contains "appears to be empty or corrupted". *)
Theorem suspect_artifact_rejected env text fs0 c f :
  engine_invoked env text fs0 ->
  proc (invocation env text) = Started c ->
  elapsed_ms c <= 30 * 1000 ->
  returncode c = 0%Z ->
  produced env text fs0 = Some f ->
  (size_of f < 1000)%nat ->
  http_status (response env text fs0) = 500%Z
  /\ (forall served, response env text fs0 <> Return served)
  /\ (is_Some (decode (stdout c)) -> is_Some (decode (stderr c)) ->
      exists d,
        http_detail (response env text fs0) = Some d
        /\ contains (lit "appears to be empty or corrupted") d).
Proof.
  intros Hrun Hproc Hintime Hrc Hf Hsmall.
  destruct (exit_of_completed env text fs0 c Hrun Hproc Hintime)
    as [Hok Hexit].
  destruct (synthesize_run env text fs0 Hok) as [-> _]. rewrite Hexit.
  rewrite Hrc, Hf. apply Nat.ltb_lt in Hsmall as ->. cbn [Z.eqb negb].
  split; [|split].
  - by destruct (decode (stdout c)), (decode (stderr c)).
  - by destruct (decode (stdout c)), (decode (stderr c)).
  - intros [out ->] [err ->]. eexists. split; [reflexivity|].
    apply occurs_contains. vm_compute. reflexivity.
Qed.

Lemma suspect_artifact_rejected_witness :
  engine_invoked suspect_host hello installed
  /\ http_status (response suspect_host hello installed) = 500%Z
  /\ exists d,
       http_detail (response suspect_host hello installed) = Some d
       /\ contains (lit "appears to be empty or corrupted") d.
Proof.
  assert (Hrun : engine_invoked suspect_host hello installed)
    by (exists (command suspect_host); by_evaluation).
  split; [exact Hrun|].
  destruct (suspect_artifact_rejected suspect_host hello installed
              (Child 2000 0 [] []) (File (Binary (replicate 999 x00)) 420)
              Hrun)
    as (Hstatus & _ & Hdetail);
    [reflexivity|vm_compute; discriminate|reflexivity|reflexivity
    |vm_compute; lia|].
  split; [exact Hstatus|].
  apply Hdetail; eexists; reflexivity.
Defined.

(** C6 at a run it is about: the engine exits with status zero, leaves a
    10-byte artifact and prints the single byte ff, which is not UTF-8.
    The strict [decode] of line 107, made only to print the stream,
    raises before the checks of lines 111-118 are reached: the detail
    speaks of the codec, not of an empty or corrupted file. *)
Lemma undecodable_stdout_hides_suspect_artifact :
  engine_invoked
    noisy_host
    hello installed
  /\ (exists c f,
        proc (invocation
                noisy_host hello) = Started c
        /\ elapsed_ms c <= 30 * 1000
        /\ returncode c = 0%Z
        /\ produced
             noisy_host
             hello installed = Some f
        /\ (size_of f < 1000)%nat)
  /\ exists d,
       http_detail
         (response
            noisy_host
            hello installed) = Some d
       /\ d = lit "Error: 'utf-8' codec can't decode byte 0xff in position 0: invalid start byte"
       /\ ~ contains (lit "appears to be empty or corrupted") d.
Proof.
  split; [exists (command noisy_host); by_evaluation|].
  split.
  { eexists _, _. repeat split; [vm_compute; discriminate|vm_compute; lia]. }
  eexists. split; [vm_compute; reflexivity|]. split; [reflexivity|].
  rewrite occurs_contains. vm_compute. discriminate.
Qed.

(** The detail the caller gets when the engine reports success and no
    file is found at the output path: the handler's own message, caught
    by the [except Exception] clause of line 145 and wrapped. *)
Lemma missing_artifact_detail env text fs0 c :
  engine_invoked env text fs0 ->
  proc (invocation env text) = Started c ->
  elapsed_ms c <= 30 * 1000 ->
  returncode c = 0%Z ->
  is_Some (decode (stdout c)) -> is_Some (decode (stderr c)) ->
  produced env text fs0 = None ->
  response env text fs0
  = Raise (HTTPException 500
             (lit "Error: " ++ str_of_Z 500 ++ lit ": "
              ++ lit "Audio file was not generated")).
Proof.
  intros Hrun Hproc Hintime Hrc [out Hout] [err Herr] Hf.
  destruct (exit_of_completed env text fs0 c Hrun Hproc Hintime)
    as [Hok Hexit].
  destruct (synthesize_run env text fs0 Hok) as [-> _].
  by rewrite Hexit, Hrc, Hout, Herr, Hf.
Qed.

(** C2 at a run it is about: the engine exits with status zero, prints
    nothing and leaves no file.  The answer is a 500, but its detail is
    "Error: 500: Audio file was not generated", not the bare message. *)
Theorem missing_artifact_detail_is_wrapped :
  engine_invoked silent_host hello installed
  /\ (exists c,
        proc (invocation silent_host hello) = Started c
        /\ elapsed_ms c <= 30 * 1000
        /\ returncode c = 0%Z)
  /\ produced silent_host hello installed = None
  /\ response silent_host hello installed
     = Raise (HTTPException 500
                (lit "Error: 500: Audio file was not generated"))
  /\ http_detail (response silent_host hello installed)
     <> Some (lit "Audio file was not generated").
Proof.
  split; [exists (command silent_host); by_evaluation|].
  split; [eexists; repeat split; vm_compute; discriminate|].
  split; [reflexivity|].
  split; [vm_compute; reflexivity|vm_compute; discriminate].
Qed.

Lemma unlinked_events env p w q ok :
  Unlink q ok ∈ (unlinked env p w).2 -> Unlink q ok ∈ w.2 \/ q = p.
Proof.
  unfold unlinked. repeat case_match; cbn;
    intros [Hin|[= -> _]%list_elem_of_singleton]%elem_of_app; auto.
Qed.

Lemma unlinked_lookup_ne env p w q :
  q <> p -> (unlinked env p w).1 !! q = w.1 !! q.
Proof.
  intros Hq. unfold unlinked. repeat case_match; cbn; try done.
  by apply lookup_delete_ne.
Qed.

Lemma run_keeps_files env text fs0 p :
  is_Some (fs0 !! p) ->
  is_Some ((staged env text fs0).1 !! p)
  /\ is_Some ((after_run env text (primed env (staged env text fs0))).1 !! p).
Proof.
  intros Hp.
  assert (H1 : is_Some ((staged env text fs0).1 !! p)).
  { cbn. rewrite lookup_insert. by case_decide. }
  split; [done|].
  assert (H2 : is_Some ((primed env (staged env text fs0)).1 !! p)).
  { unfold primed. repeat case_match; try done.
    cbn -[staged]. rewrite lookup_insert. by case_decide. }
  unfold after_run, finished, launched. repeat case_match; try done.
  cbn -[staged primed]. rewrite lookup_insert. by case_decide.
Qed.

(** C9: whatever the way out, every [os.unlink] the handler makes is on
    the staged input, never on the output path; every file that was there
    before the request, other than under the staged input's name, is
    still there after it; and an artifact the engine left is still at the
    output path when the handler is done. *)
Theorem output_artifact_never_deleted env text fs0 :
  (forall p ok,
     Unlink p ok ∈ (aftermath env text fs0).2 ->
     p = temp_path env /\ p <> output_path env)
  /\ (forall p,
        p <> temp_path env -> is_Some (fs0 !! p) ->
        is_Some ((aftermath env text fs0).1 !! p))
  /\ (forall c b,
        engine_invoked env text fs0 ->
        proc (invocation env text) = Started c ->
        artifact (invocation env text) = Some b ->
        (aftermath env text fs0).1 !! output_path env
        = Some (File (Binary b) 420)).
Proof.
  destruct (accepted_dec text) as [Hok|Hno].
  2: { rewrite aftermath_rejected by done. cbn.
       split; [|split]; try done.
       - intros p ok H. by apply elem_of_nil in H.
       - intros c b [Hacc _]%engine_invoked_inv. done. }
  destruct (synthesize_run env text fs0 Hok) as [_ Hw].
  pose proof (staged_pristine env text fs0) as [_ Hs].
  pose proof (run_pristine env text fs0) as [_ Hr].
  split; [|split].
  - intros p ok Hin. rewrite Hw in Hin.
    assert (p = temp_path env) as ->; [|split; auto with paths].
    apply unlinked_events in Hin as [Hin| ->]; [|done].
    destruct (before_finally_cases env text fs0)
      as [[Hb _]|(_ & _ & [[Hb _]|[Hb _]])]; rewrite Hb in Hin.
    + by apply untouched_no_unlink in Hin.
    + by apply untouched_no_unlink in Hin.
    + apply unlinked_events in Hin as [Hin| ->]; [|done].
      by apply untouched_no_unlink in Hin.
  - intros p Hp Hin. rewrite Hw, unlinked_lookup_ne by done.
    destruct (run_keeps_files env text fs0 p Hin) as [H1 H2].
    destruct (before_finally_cases env text fs0)
      as [[Hb _]|(_ & _ & [[Hb _]|[Hb _]])]; rewrite Hb;
      by rewrite ?unlinked_lookup_ne by done.
  - intros c b Hrun Hproc Hart.
    apply engine_invoked_inv in Hrun as (_ & [fp HP] & [fm HM]).
    rewrite Hw, unlinked_lookup_ne by auto with paths.
    assert (Hout : (after_run env text (primed env (staged env text fs0))).1
                     !! output_path env = Some (File (Binary b) 420)).
    { rewrite (after_run_lookup_output _ _ _ c) by done.
      unfold produced. by rewrite Hart. }
    destruct (before_finally_cases env text fs0)
      as [[_ [?|?]]|(_ & _ & [[Hb _]|[Hb _]])]; try congruence;
      rewrite Hb; by rewrite ?unlinked_lookup_ne by auto with paths.
Qed.

Lemma response_ignores_unlink env refuse text fs0 :
  response (with_unlink_refused refuse env) text fs0 = response env text fs0.
Proof.
  destruct (accepted_dec text) as [Hok|Hno].
  - destruct (synthesize_run env text fs0 Hok) as [-> _].
    destruct (synthesize_run (with_unlink_refused refuse env) text fs0 Hok)
      as [-> _].
    reflexivity.
  - unfold response. destruct (truthy (strip text)) eqn:Hne.
    + destruct (decide (len text <= 1000)%nat) as [Hle|Hgt];
        [destruct Hno; done|].
      by rewrite !synthesize_too_long by (done || lia).
    + by rewrite !synthesize_empty.
Qed.

Lemma created_inv env text fs0 :
  Created (temp_path env) ∈ (aftermath env text fs0).2 -> accepted text.
Proof.
  intros Hin. destruct (accepted_dec text) as [Hok|Hno]; [done|].
  rewrite aftermath_rejected in Hin by done. by apply elem_of_nil in Hin.
Qed.

(** What one cleanup of a pristine world leaves: the staged input gone
    and one deletion on record, or, when the host refuses, everything as
    it was. *)
Lemma cleanup_pristine env text w :
  pristine env text w ->
  let w' := unlinked env (temp_path env) w in
  (unlink_refused env 0 = None
   /\ deletions (temp_path env) w'.2 = 1%nat
   /\ w'.1 !! temp_path env = None
   /\ unlink_attempts w'.2 = 1%nat)
  \/ (is_Some (unlink_refused env 0)
      /\ deletions (temp_path env) w'.2 = 0%nat
      /\ w'.1 !! temp_path env = Some (File (Text text) 384)
      /\ unlink_attempts w'.2 = 1%nat).
Proof.
  intros Hw. pose proof Hw as [Hf Hl]. cbn zeta.
  rewrite (unlinked_pristine env text w Hw).
  destruct (unlink_refused env 0) eqn:Hr; [right|left]; cbn [fst snd];
    rewrite deletions_snoc, attempts_snoc, untouched_deletions,
      untouched_attempts by done;
    repeat split; eauto.
  - by case_decide.
  - by case_decide.
  - apply lookup_delete_eq.
Qed.

(** Once the staged input is stored: whatever the way out, the file is
    deleted exactly once and is gone when the handler is done, unless the
    host refuses the deletion, in which case no deletion is on record and
    the file stays; and what the caller gets does not depend on which
    deletions the host refuses. *)
Lemma staged_input_deleted_once env text fs0 :
  Created (temp_path env) ∈ (aftermath env text fs0).2 ->
  (deletions (temp_path env) (aftermath env text fs0).2 = 1%nat
   /\ (aftermath env text fs0).1 !! temp_path env = None
   \/ deletions (temp_path env) (aftermath env text fs0).2 = 0%nat
      /\ is_Some ((aftermath env text fs0).1 !! temp_path env)
      /\ is_Some (unlink_refused env 0))
  /\ (unlink_refused env 0 = None ->
      deletions (temp_path env) (aftermath env text fs0).2 = 1%nat
      /\ (aftermath env text fs0).1 !! temp_path env = None)
  /\ (forall refuse,
        response (with_unlink_refused refuse env) text fs0
        = response env text fs0).
Proof.
  intros Hok%created_inv.
  destruct (synthesize_run env text fs0 Hok) as [_ ->].
  assert (Hmain :
    let w := unlinked env (temp_path env) (before_finally env text fs0) in
    deletions (temp_path env) w.2 = 1%nat /\ w.1 !! temp_path env = None
    \/ deletions (temp_path env) w.2 = 0%nat
       /\ is_Some (w.1 !! temp_path env)
       /\ is_Some (unlink_refused env 0)).
  { pose proof (run_pristine env text fs0) as Hrun.
    destruct (before_finally_cases env text fs0)
      as [[Hb _]|(_ & _ & [[Hb _]|[Hb _]])]; rewrite Hb; cbn zeta.
    - destruct (cleanup_pristine env text _ (staged_pristine env text fs0))
        as [(_ & Hd & Hf & _)|(Hr & Hd & Hf & _)]; [left|right];
        rewrite ?Hf; eauto.
    - destruct (cleanup_pristine env text _ Hrun)
        as [(_ & Hd & Hf & _)|(Hr & Hd & Hf & _)]; [left|right];
        rewrite ?Hf; eauto.
    - destruct (cleanup_pristine env text _ Hrun)
        as [(_ & Hd & Hf & Ha)|(Hr & Hd & Hf & Ha)];
        cbn zeta in *;
        set (w1 := unlinked env (temp_path env) (after_run _ _ _)) in *;
        unfold unlinked; rewrite Ha, Hf.
      + left. destruct (unlink_refused env 1); cbn [fst snd];
          by rewrite deletions_snoc, Hd, decide_False.
      + destruct (unlink_refused env 1); cbn [fst snd];
          rewrite deletions_snoc, Hd; [right|left].
        * rewrite decide_False by done. rewrite Hf. eauto.
        * rewrite decide_True by done. split; [done|].
          apply lookup_delete_eq. }
  cbn zeta in Hmain. split; [exact Hmain|]. split.
  - intros Hfree. destruct Hmain as [?|(_ & _ & [? Hr])]; [done|congruence].
  - intros refuse. apply response_ignores_unlink.
Qed.

(** Nothing of this depends on the host but what its temporary directory
    does with the text. *)
Lemma stored_as_init env text fs0 t :
  t text = Stored ->
  (synthesize env text (host fs0 t)).1 = response env text fs0
  /\ world_of (synthesize env text (host fs0 t)).2 = aftermath env text fs0.
Proof.
  intros Ht. destruct (accepted_dec text) as [Hok|Hno].
  - destruct (synthesize_run env text fs0 Hok) as [-> ->].
    by apply (synthesize_stored env text (host fs0 t)).
  - unfold response, aftermath. destruct (truthy (strip text)) eqn:Hne.
    + destruct (decide (len text <= 1000)%nat) as [Hle|Hgt];
        [destruct Hno; done|].
      by rewrite !synthesize_too_long by (done || lia).
    + by rewrite !synthesize_empty.
Qed.

(** C1 at a request it is about: "Hello world" on a working host whose
    disk is full.  The staged input is created, the write fails, and the
    [OSError] leaves the handler from lines 78-80, which are not inside
    the [try]: the caller gets the bare exception, no [os.unlink] is ever
    called although the host would not refuse it, and the file is still
    there when the handler is done. *)
Theorem failed_write_leaves_staged_input :
  accepted hello
  /\ (synthesize working_host hello (host installed full_disk)).1
     = Raise (OSError (lit "[Errno 28] No space left on device"))
  /\ log (synthesize working_host hello (host installed full_disk)).2
     = [Created (temp_path working_host)]
  /\ deletions (temp_path working_host)
       (log (synthesize working_host hello (host installed full_disk)).2)
     = 0%nat
  /\ fs (synthesize working_host hello (host installed full_disk)).2
       !! temp_path working_host
     = Some (File (Text []) 384)
  /\ unlink_refused working_host 0 = None.
Proof.
  split; [split; vm_compute; [done|lia]|].
  repeat split; vm_compute; reflexivity.
Qed.

(** ** A request that is served *)

(** "Hello world" on a working host: the caller gets the file response,
    the artifact is at the output path, and the staged input is unlinked
    twice, by line 126 and by the [finally] clause; the second call finds
    nothing to delete. *)
Example hello_world_is_served :
  response working_host hello installed
  = Return (served_response working_host)
  /\ (aftermath working_host hello installed).1 !! output_path working_host
     = Some (File (Binary (replicate 1000 x00)) 420)
  /\ (aftermath working_host hello installed).2
     = [Created (temp_path working_host);
        Chmod (PIPER_PATH working_host) true;
        Spawned (command working_host);
        Unlink (temp_path working_host) true;
        Unlink (temp_path working_host) false].
Proof. repeat split; vm_compute; reflexivity. Qed.

(** ** Further properties of the handlers *)

(** *** Validation *)

Lemma lstrip_nil text :
  lstrip text = [] <-> Forall (fun c => isspace c = true) text.
Proof.
  induction text as [|c l IH]; cbn; [done|].
  destruct (isspace c) eqn:Hc.
  - rewrite IH. split; [by constructor|by inversion 1].
  - split; [done|]. inversion 1; congruence.
Qed.

Lemma lstrip_suffix text : lstrip text `suffix_of` text.
Proof.
  induction text as [|c l IH]; cbn; [done|].
  destruct (isspace c); [by apply suffix_cons_r|done].
Qed.

Lemma lstrip_head text c l : lstrip text = c :: l -> isspace c = false.
Proof.
  induction text as [|d t IH]; cbn; [done|].
  destruct (isspace d) eqn:Hd; [done|]. by intros [= <- _].
Qed.

Lemma strip_nil text :
  strip text = [] <-> Forall (fun c => isspace c = true) text.
Proof.
  split; [|apply strip_whitespace].
  unfold strip, rstrip. intros H.
  apply (f_equal (@rev N)) in H. rewrite rev_involutive in H. cbn in H.
  apply lstrip_nil in H. apply Forall_rev in H.
  rewrite rev_involutive in H.
  destruct (lstrip text) as [|c l] eqn:Hl; [by apply lstrip_nil|].
  apply lstrip_head in Hl. inversion H; congruence.
Qed.

Lemma accepted_iff text :
  accepted text
  <-> Exists (fun c => isspace c = false) text /\ (len text <= 1000)%nat.
Proof.
  unfold accepted.
  assert (truthy (strip text) = true
          <-> Exists (fun c => isspace c = false) text) as ->; [|done].
  rewrite Exists_exists. split.
  - intros Hne. destruct (decide (Forall (fun c => isspace c = true) text))
      as [Hall|Hex].
    + apply strip_nil in Hall. by rewrite Hall in Hne.
    + induction text as [|c l IH]; [by destruct Hex|].
      destruct (isspace c) eqn:Hc; [|exists c; split; [left|done]].
      destruct IH as (d & Hin & Hd).
      * unfold strip, rstrip in *. cbn in Hne. by rewrite Hc in Hne.
      * intros Hall. apply Hex. by constructor.
      * exists d. split; [by right|done].
  - intros (c & Hin & Hc).
    destruct (strip text) eqn:Hs; [|done].
    apply strip_nil in Hs. rewrite Forall_forall in Hs.
    specialize (Hs c Hin). congruence.
Qed.

Lemma response_rejected env text fs0 :
  ~ accepted text ->
  exists d, response env text fs0 = Raise (HTTPException 400 d).
Proof.
  intros Hno. unfold response. destruct (truthy (strip text)) eqn:Hne.
  - destruct (decide (len text <= 1000)%nat) as [Hle|Hgt];
      [destruct Hno; done|].
    rewrite synthesize_too_long by (done || lia). eauto.
  - rewrite synthesize_empty by done. eauto.
Qed.

Lemma reply_status env x :
  http_status (reply env x)
  = if is_served (reply env x) then 200%Z else 500%Z.
Proof. destruct x; cbn; repeat case_match; done. Qed.

(** X1: a request is answered 400 exactly when its text has no character
    other than whitespace or has more than 1000 characters, counted before
    stripping; every other request is answered 200 or 500. *)
Theorem rejected_iff_blank_or_long env text fs0 :
  (http_status (response env text fs0) = 400%Z
   <-> ~ (Exists (fun c => isspace c = false) text
          /\ (len text <= 1000)%nat))
  /\ (http_status (response env text fs0) <> 400%Z ->
      http_status (response env text fs0) = 200%Z
      \/ http_status (response env text fs0) = 500%Z).
Proof.
  rewrite <- accepted_iff.
  destruct (accepted_dec text) as [Hok|Hno].
  - destruct (synthesize_run env text fs0 Hok) as [-> _].
    rewrite reply_status.
    destruct (is_served _); (split; [split; [done|tauto]|auto]).
  - destruct (response_rejected env text fs0 Hno) as [d ->]. cbn.
    split; [tauto|done].
Qed.

(** The length bound is on the text as sent: 999 letters between two
    spaces are rejected although the stripped text is short enough. *)
Example padded_text_is_too_long :
  len (strip padded_text) = 999%nat
  /\ response working_host padded_text installed
     = Raise (HTTPException 400 (lit "Text too long (max 1000 characters)")).
Proof. split; vm_compute; reflexivity. Qed.

(** *** Serving *)

Lemma exit_served_iff env text fs0 :
  (exists c f, exit_of env text fs0 = Served c f) <-> servable env text fs0.
Proof.
  unfold servable, engine_ready, exit_of. split.
  - intros (c & f & H).
    destruct (fs0 !! PIPER_PATH env) eqn:HP; [|done].
    destruct (fs0 !! MODEL_PATH env) eqn:HM; [|done].
    destruct (proc (invocation env text)) as [c'|] eqn:Hproc; [|done].
    destruct (30 * 1000 <? elapsed_ms c') eqn:Ht; [done|].
    destruct (negb (returncode c' =? 0)%Z) eqn:Hrc; [done|].
    destruct (decode (stdout c')) eqn:Ho; [|done].
    destruct (decode (stderr c')) eqn:He; [|done].
    destruct (produced env text fs0) as [f'|] eqn:Hf; [|done].
    destruct (size_of f' <? 1000)%nat eqn:Hs; [done|].
    split; [eauto|]. exists c', f'. repeat split; eauto.
    + by apply N.ltb_ge.
    + apply negb_false_iff in Hrc. by apply Z.eqb_eq.
    + by apply Nat.ltb_ge.
  - intros ([[fp ->] [fm ->]] & c & f & -> & Ht & Hrc & [o ->] & [e ->]
            & -> & Hs).
    apply N.ltb_ge in Ht as ->. rewrite Hrc. cbn [Z.eqb negb].
    apply Nat.ltb_ge in Hs as ->. eauto.
Qed.

Lemma reply_served env x :
  is_served (reply env x) = true <-> exists c f, x = Served c f.
Proof.
  split.
  - destruct x; cbn; repeat case_match; try done. eauto.
  - by intros (c & f & ->).
Qed.

(** X2: the caller gets a file response exactly when the text is
    accepted, both configured files exist, the engine starts, exits within
    30 seconds with status zero, its captured output and error streams
    are UTF-8, and the file at the output path has at least 1000 bytes;
    the response then names the output path, with media type audio/wav,
    a file name made of "speech_", the first 8 characters of a fresh
    hexadecimal token and ".wav", and the two headers of lines 134-137. *)
Theorem served_iff_servable env text fs0 :
  ((exists r, response env text fs0 = Return r)
   <-> accepted text /\ servable env text fs0)
  /\ (forall r,
        response env text fs0 = Return r ->
        path r = lit "output_" ++ uuid_output env ++ lit ".wav"
        /\ media_type r = lit "audio/wav"
        /\ filename r
           = lit "speech_" ++ take 8 (uuid_filename env) ++ lit ".wav"
        /\ headers r = [(lit "Content-Disposition", lit "attachment");
                        (lit "Cache-Control", lit "no-cache")]).
Proof.
  destruct (accepted_dec text) as [Hok|Hno].
  - destruct (synthesize_run env text fs0 Hok) as [-> _].
    rewrite <- exit_served_iff. split.
    + split.
      * intros [r Hr]. split; [done|].
        apply (reply_served env). by rewrite Hr.
      * intros [_ (c & f & ->)]. cbn. eauto.
    + intros r Hr.
      assert (Hs : is_served (reply env (exit_of env text fs0)) = true)
        by by rewrite Hr.
      apply reply_served in Hs as (c & f & Hx). rewrite Hx in Hr.
      cbn in Hr. by injection Hr as <-.
  - destruct (response_rejected env text fs0 Hno) as [d ->].
    split; [split; [by intros [r [=]]|tauto]|done].
Qed.

(** *** The system calls of a request, in order *)

Lemma primed_log env w :
  is_Some (w.1 !! PIPER_PATH env) ->
  (primed env w).2 = w.2 ++ chmod_events env.
Proof.
  intros [f Hf]. unfold primed, chmod_events. rewrite Hf.
  destruct (IS_WINDOWS env); cbn; [by rewrite app_nil_r|].
  by destruct (chmod_refused env).
Qed.

Lemma after_run_log env text w :
  (after_run env text w).2 = w.2 ++ [Spawned (command env)].
Proof. unfold after_run. by destruct (proc (invocation env text)). Qed.

Lemma unlinked_log env p w :
  exists ok, (unlinked env p w).2 = w.2 ++ [Unlink p ok].
Proof. unfold unlinked. repeat case_match; cbn; eauto. Qed.

Lemma staged_lookup_piper env text fs0 :
  (staged env text fs0).1 !! PIPER_PATH env = fs0 !! PIPER_PATH env.
Proof. cbn. apply lookup_insert_ne. auto with paths. Qed.

Lemma run_log env text fs0 :
  engine_ready env fs0 ->
  (after_run env text (primed env (staged env text fs0))).2
  = [Created (temp_path env)] ++ chmod_events env
    ++ [Spawned (command env)].
Proof.
  intros [HP _]. rewrite after_run_log, primed_log.
  - by rewrite <- app_assoc.
  - by rewrite staged_lookup_piper.
Qed.

Lemma spawned_argvs_app l1 l2 :
  spawned_argvs (l1 ++ l2) = spawned_argvs l1 ++ spawned_argvs l2.
Proof. apply omap_app. Qed.

Lemma chmod_events_quiet env : spawned_argvs (chmod_events env) = [].
Proof. unfold chmod_events. by destruct (IS_WINDOWS env). Qed.

Lemma aftermath_log_cases env text fs0 :
  accepted text ->
  (~ engine_ready env fs0
   /\ is_served (response env text fs0) = false
   /\ exists ok,
        (aftermath env text fs0).2
        = [Created (temp_path env); Unlink (temp_path env) ok])
  \/ (engine_ready env fs0
      /\ is_served (response env text fs0) = false
      /\ exists ok,
           (aftermath env text fs0).2
           = [Created (temp_path env)] ++ chmod_events env
             ++ [Spawned (command env); Unlink (temp_path env) ok])
  \/ (engine_ready env fs0
      /\ is_served (response env text fs0) = true
      /\ exists ok1 ok2,
           (aftermath env text fs0).2
           = [Created (temp_path env)] ++ chmod_events env
             ++ [Spawned (command env); Unlink (temp_path env) ok1;
                 Unlink (temp_path env) ok2]).
Proof.
  intros Hok. destruct (synthesize_run env text fs0 Hok) as [-> ->].
  destruct (unlinked_log env (temp_path env) (before_finally env text fs0))
    as [ok ->].
  destruct (before_finally_cases env text fs0)
    as [[-> Hmiss]|(HP & HM & [[-> Hns]|[-> (c & f & Hx)]])].
  - left. assert (Hnr : ~ engine_ready env fs0).
    { intros [[? ?] [? ?]]. destruct Hmiss; congruence. }
    split; [done|]. split; [|eauto].
    apply not_true_is_false. intros (c & f & Hx)%reply_served.
    apply Hnr. apply (exit_served_iff env text fs0). eauto.
  - right. left. split; [done|]. split.
    + apply not_true_is_false. intros (c & f & Hx)%reply_served.
      by apply Hns in Hx.
    + exists ok. rewrite run_log by done. by rewrite <- !app_assoc.
  - right. right. split; [done|]. split; [by rewrite Hx|].
    destruct (unlinked_log env (temp_path env)
                (after_run env text (primed env (staged env text fs0))))
      as [ok1 ->].
    exists ok1, ok. rewrite run_log by done. by rewrite <- !app_assoc.
Qed.

(** X3: the system calls of an accepted request are, in this order: the
    creation of the staged input; when both configured files exist, the
    chmod of the engine (not on Windows) and the call of the engine; one
    unlink of the staged input; and, exactly when the request is served,
    a second unlink of it.  A rejected request makes none. *)
Theorem system_calls_in_order env text fs0 :
  (~ accepted text -> (aftermath env text fs0).2 = [])
  /\ (accepted text ->
      exists ok1 again,
        (aftermath env text fs0).2
        = [Created (temp_path env)]
          ++ (if bool_decide (engine_ready env fs0)
              then chmod_events env ++ [Spawned (command env)]
              else [])
          ++ [Unlink (temp_path env) ok1] ++ again
        /\ (is_served (response env text fs0) = false /\ again = []
            \/ is_served (response env text fs0) = true
               /\ exists ok2, again = [Unlink (temp_path env) ok2])).
Proof.
  split; [intros Hno; by rewrite aftermath_rejected|].
  intros Hok.
  destruct (aftermath_log_cases env text fs0 Hok)
    as [(Hnr & Hs & ok & ->)|[(Hr & Hs & ok & ->)|(Hr & Hs & ok1 & ok2 & ->)]].
  - exists ok, []. rewrite bool_decide_eq_false_2 by done. auto.
  - exists ok, []. rewrite bool_decide_eq_true_2 by done.
    split; [by rewrite <- !app_assoc|auto].
  - exists ok1, [Unlink (temp_path env) ok2].
    rewrite bool_decide_eq_true_2 by done.
    split; [by rewrite <- !app_assoc|]. right. eauto.
Qed.

(** X4: the engine is called at most once per request: exactly once,
    with the configured engine path, [--model] and the configured model
    path, [--output_file] and the request's output path, when the text is
    accepted and both configured files exist, and not at all otherwise. *)
Theorem engine_called_once env text fs0 :
  (accepted text /\ engine_ready env fs0 ->
   spawned_argvs (aftermath env text fs0).2
   = [[PIPER_PATH env; lit "--model"; MODEL_PATH env; lit "--output_file";
       lit "output_" ++ uuid_output env ++ lit ".wav"]])
  /\ (~ (accepted text /\ engine_ready env fs0) ->
      spawned_argvs (aftermath env text fs0).2 = []).
Proof.
  destruct (accepted_dec text) as [Hok|Hno].
  2: { rewrite aftermath_rejected by done. split; [tauto|done]. }
  pose proof (chmod_events_quiet env) as Hq.
  destruct (aftermath_log_cases env text fs0 Hok)
    as [(Hnr & _ & ok & ->)|[(Hr & _ & ok & ->)|(Hr & _ & ok1 & ok2 & ->)]];
    rewrite ?spawned_argvs_app, ?Hq; (split; [|tauto]); try tauto;
    by intros _.
Qed.

(** *** The files of a request *)

Lemma model_ne_piper env : MODEL_PATH env <> PIPER_PATH env.
Proof.
  intros H. apply (f_equal last) in H.
  rewrite last_MODEL_PATH, last_PIPER_PATH in H.
  destruct (IS_WINDOWS env); discriminate.
Qed.

Lemma model_ne_output env : MODEL_PATH env <> output_path env.
Proof.
  intros H. apply (f_equal last) in H.
  rewrite last_MODEL_PATH, last_output_path in H. discriminate.
Qed.

Lemma run_lookup_other env text fs0 p :
  p <> temp_path env -> p <> output_path env -> p <> PIPER_PATH env ->
  (after_run env text (primed env (staged env text fs0))).1 !! p = fs0 !! p.
Proof.
  intros Ht Ho Hp.
  assert ((primed env (staged env text fs0)).1 !! p = fs0 !! p) as Hpr.
  { rewrite primed_fst_lookup by done. cbn. by rewrite lookup_insert_ne. }
  unfold after_run, finished, launched. repeat case_match; cbn; try done.
  by rewrite lookup_insert_ne.
Qed.

Lemma run_lookup_piper env text fs0 :
  (after_run env text (primed env (staged env text fs0))).1 !! PIPER_PATH env
  = (primed env (staged env text fs0)).1 !! PIPER_PATH env.
Proof.
  unfold after_run, finished, launched. repeat case_match; cbn; try done.
  apply lookup_insert_ne. auto with paths.
Qed.

Lemma primed_lookup_piper env text fs0 :
  (primed env (staged env text fs0)).1 !! PIPER_PATH env
  = match fs0 !! PIPER_PATH env with
    | Some f =>
      Some (if negb (IS_WINDOWS env)
            then match chmod_refused env with
                 | None => File (data f) 493
                 | Some _ => f
                 end
            else f)
    | None => None
    end.
Proof.
  unfold primed. rewrite staged_lookup_piper.
  destruct (negb (IS_WINDOWS env)); [|by rewrite staged_lookup_piper;
                                        destruct (fs0 !! PIPER_PATH env)].
  destruct (chmod_refused env), (fs0 !! PIPER_PATH env) eqn:HP; cbn -[staged];
    rewrite ?lookup_insert_eq, ?staged_lookup_piper, ?HP; done.
Qed.

(** The files after an accepted request, but for the staged input. *)
Lemma aftermath_lookup env text fs0 p :
  accepted text -> p <> temp_path env ->
  (aftermath env text fs0).1 !! p
  = if bool_decide (engine_ready env fs0)
    then (after_run env text (primed env (staged env text fs0))).1 !! p
    else fs0 !! p.
Proof.
  intros Hok Hp. destruct (synthesize_run env text fs0 Hok) as [_ ->].
  rewrite unlinked_lookup_ne by done.
  destruct (before_finally_cases env text fs0)
    as [[-> Hmiss]|(HP & HM & [[-> _]|[-> _]])].
  - rewrite bool_decide_eq_false_2.
    + cbn. by rewrite lookup_insert_ne.
    + intros [[? ?] [? ?]]. destruct Hmiss; congruence.
  - by rewrite bool_decide_eq_true_2.
  - rewrite bool_decide_eq_true_2 by done. by rewrite unlinked_lookup_ne.
Qed.

(** X5: a request changes no file other than its staged input, the file
    at its output path and the engine; the model file is left as it was,
    and the engine keeps its content (only its permission bits may
    change). *)
Theorem request_leaves_other_files env text fs0 :
  (forall p,
     p <> temp_stem env ++ lit ".txt" ->
     p <> lit "output_" ++ uuid_output env ++ lit ".wav" ->
     p <> PIPER_PATH env ->
     (aftermath env text fs0).1 !! p = fs0 !! p)
  /\ (aftermath env text fs0).1 !! MODEL_PATH env = fs0 !! MODEL_PATH env
  /\ data <$> (aftermath env text fs0).1 !! PIPER_PATH env
     = data <$> fs0 !! PIPER_PATH env.
Proof.
  fold (temp_path env) (output_path env).
  destruct (accepted_dec text) as [Hok|Hno];
    [|by rewrite aftermath_rejected].
  assert (Hother : forall p,
            p <> temp_path env -> p <> output_path env ->
            p <> PIPER_PATH env ->
            (aftermath env text fs0).1 !! p = fs0 !! p).
  { intros p Ht Ho Hp. rewrite aftermath_lookup by done.
    case_bool_decide; [by apply run_lookup_other|done]. }
  split; [exact Hother|]. split.
  - apply Hother; auto using model_ne_piper, model_ne_output with paths.
  - rewrite aftermath_lookup by auto with paths.
    case_bool_decide; [|done].
    rewrite run_lookup_piper, primed_lookup_piper.
    destruct (fs0 !! PIPER_PATH env); [|done].
    by destruct (negb (IS_WINDOWS env)), (chmod_refused env).
Qed.

Lemma response_accepted env text fs0 r :
  response env text fs0 = Return r -> accepted text.
Proof.
  intros Hr. destruct (accepted_dec text) as [Hok|Hno]; [done|].
  destruct (response_rejected env text fs0 Hno) as [d Hd]. congruence.
Qed.

(** X6: whenever a file response is returned, the file it names is still
    there when the handler is done and has at least 1000 bytes. *)
Theorem served_file_is_there env text fs0 r :
  response env text fs0 = Return r ->
  exists f,
    (aftermath env text fs0).1 !! path r = Some f
    /\ (1000 <= size_of f)%nat.
Proof.
  intros Hr. pose proof (response_accepted _ _ _ _ Hr) as Hok.
  pose proof Hr as Hr'.
  destruct (synthesize_run env text fs0 Hok) as [Hreply _].
  rewrite Hreply in Hr.
  assert (Hs : is_served (reply env (exit_of env text fs0)) = true)
    by by rewrite Hr.
  apply reply_served in Hs as (c & f & Hx). rewrite Hx in Hr.
  injection Hr as <-.
  assert (Hsv : servable env text fs0) by (apply exit_served_iff; eauto).
  destruct Hsv as (Hready & c' & f' & Hproc & _ & _ & _ & _ & Hf & Hsize).
  exists f'. split; [|done]. cbn [path served_response].
  rewrite aftermath_lookup by auto with paths.
  rewrite bool_decide_eq_true_2 by done.
  by rewrite (after_run_lookup_output _ _ _ c').
Qed.

Lemma served_file_is_there_witness :
  response working_host hello installed = Return (served_response working_host)
  /\ exists f,
       (aftermath working_host hello installed).1
         !! path (served_response working_host) = Some f
       /\ (1000 <= size_of f)%nat.
Proof.
  assert (H : response working_host hello installed
              = Return (served_response working_host))
    by (vm_compute; reflexivity).
  split; [exact H|].
  exact (served_file_is_there working_host hello installed _ H).
Defined.

(** X7: when the engine cannot be started ([subprocess.run] raises an
    [OSError]), an accepted request on a host with both configured files
    is answered 500 with detail "Error: " followed by the error's message,
    and the file at the output path, if any, is what it was. *)
Theorem engine_launch_failure env text fs0 msg :
  accepted text ->
  engine_ready env fs0 ->
  proc (invocation env text) = NotStarted msg ->
  response env text fs0 = Raise (HTTPException 500 (lit "Error: " ++ msg))
  /\ (aftermath env text fs0).1 !! output_path env = fs0 !! output_path env.
Proof.
  intros Hok Hready Hproc. pose proof Hready as [[fp HP] [fm HM]].
  destruct (synthesize_run env text fs0 Hok) as [-> _]. split.
  - unfold exit_of. by rewrite HP, HM, Hproc.
  - rewrite aftermath_lookup by auto with paths.
    rewrite bool_decide_eq_true_2 by done.
    unfold after_run. rewrite Hproc. cbn -[staged primed].
    rewrite primed_fst_lookup by auto with paths.
    cbn. apply lookup_insert_ne. auto with paths.
Qed.

Lemma engine_launch_failure_witness :
  accepted hello /\ engine_ready unstartable_host installed
  /\ response unstartable_host hello installed
     = Raise (HTTPException 500
                (lit "Error: [Errno 13] Permission denied: './piper'")).
Proof.
  assert (Hok : accepted hello) by (split; vm_compute; [done|lia]).
  assert (Hready : engine_ready unstartable_host installed)
    by (split; vm_compute; eauto).
  split; [exact Hok|]. split; [exact Hready|].
  apply (engine_launch_failure unstartable_host hello installed
           (lit "[Errno 13] Permission denied: './piper'") Hok Hready).
  reflexivity.
Defined.

(** X8: what the caller gets does not depend on whether [os.chmod] is
    refused, the engine behaving the same: a refusal does not abort the
    request. *)
Theorem chmod_refusal_does_not_change_reply env refuse text fs0 :
  response (with_chmod_refused refuse env) text fs0 = response env text fs0.
Proof.
  destruct (accepted_dec text) as [Hok|Hno].
  - destruct (synthesize_run env text fs0 Hok) as [-> _].
    destruct (synthesize_run (with_chmod_refused refuse env) text fs0 Hok)
      as [-> _].
    reflexivity.
  - unfold response. destruct (truthy (strip text)) eqn:Hne.
    + destruct (decide (len text <= 1000)%nat) as [Hle|Hgt];
        [destruct Hno; done|].
      by rewrite !synthesize_too_long by (done || lia).
    + by rewrite !synthesize_empty.
Qed.

(** X9: after an accepted request on a host with both configured files,
    the engine has permission bits 0o755 when the host is not Windows and
    does not refuse the chmod, and is exactly what it was otherwise. *)
Theorem engine_made_executable env text fs0 f :
  accepted text ->
  fs0 !! PIPER_PATH env = Some f ->
  is_Some (fs0 !! MODEL_PATH env) ->
  (aftermath env text fs0).1 !! PIPER_PATH env
  = Some (if IS_WINDOWS env then f
          else match chmod_refused env with
               | None => File (data f) 493
               | Some _ => f
               end).
Proof.
  intros Hok HP HM.
  rewrite aftermath_lookup by auto with paths.
  rewrite bool_decide_eq_true_2 by (split; [by rewrite HP|done]).
  rewrite run_lookup_piper, primed_lookup_piper, HP.
  by destruct (IS_WINDOWS env).
Qed.

Lemma engine_made_executable_witness :
  accepted hello
  /\ (aftermath working_host hello installed).1 !! PIPER_PATH working_host
     = Some (File (Binary []) 493).
Proof.
  assert (Hok : accepted hello) by (split; vm_compute; [done|lia]).
  split; [exact Hok|].
  apply (engine_made_executable working_host hello installed
           (File (Binary []) 420) Hok); [reflexivity|vm_compute; eauto].
Defined.

(** *** /health and /synthesize together *)

(** With the permission bits 0o755 everybody may execute the file. *)
Lemma may_execute_755 u : may_execute u 493 = true.
Proof. by destruct u. Qed.

Lemma health_check_report env s :
  exists h,
    health_check env s = (Return h, s)
    /\ piper_found h = bool_decide (is_Some (fs s !! PIPER_PATH env))
    /\ model_found h = bool_decide (is_Some (fs s !! MODEL_PATH env))
    /\ piper_executable h
       = match fs s !! PIPER_PATH env with
         | Some f => IS_WINDOWS env || may_execute (user s) (mode f)
         | None => true
         end
    /\ status h
       = if piper_found h && model_found h && piper_executable h
         then lit "healthy" else lit "unhealthy".
Proof.
  unfold health_check, os_path_exists, os_access_X_OK.
  unfold get_fs, get_user, mbind, mret, M_bind, M_ret. cbn.
  destruct (fs s !! PIPER_PATH env) as [fp|] eqn:HP,
    (fs s !! MODEL_PATH env) as [fm|] eqn:HM,
    (IS_WINDOWS env) eqn:HW; cbn; rewrite ?HP; cbn;
    eexists; (split; [reflexivity|]); cbn; done.
Qed.

(** An engine with the permission bits 0o654, executable by its group
    only: /health run by the owner reports it unhealthy, run by the
    superuser healthy. *)
Example health_depends_on_user :
  let files := <[lit "./piper" := File (Binary []) 428]> installed in
  (exists h, (health_check working_host (init files)).1 = Return h
             /\ status h = lit "unhealthy")
  /\ (exists h, (health_check working_host (run_by Root (init files))).1
                = Return h
                /\ status h = lit "healthy").
Proof. split; eexists; split; vm_compute; reflexivity. Qed.

(** X10: the three flags of the /health report: the engine and the model
    are reported found exactly when they exist; the engine is reported
    not executable exactly when, off Windows, it exists and [os.access]
    denies execution, so a missing engine is reported executable. *)
Theorem health_flags env s :
  exists h,
    health_check env s = (Return h, s)
    /\ (piper_found h = true <-> is_Some (fs s !! PIPER_PATH env))
    /\ (model_found h = true <-> is_Some (fs s !! MODEL_PATH env))
    /\ (piper_executable h = false
        <-> IS_WINDOWS env = false
            /\ is_Some (fs s !! PIPER_PATH env)
            /\ (os_access_X_OK (PIPER_PATH env) s).1 = Return false)
    /\ (fs s !! PIPER_PATH env = None -> piper_executable h = true).
Proof.
  destruct (health_check_report env s) as (h & Hh & Hp & Hm & Hx & _).
  exists h. split; [done|]. rewrite Hp, Hm, Hx.
  rewrite !bool_decide_eq_true.
  unfold os_access_X_OK, get_fs, get_user, mbind, mret, M_bind, M_ret. cbn.
  split; [done|]. split; [done|].
  destruct (fs s !! PIPER_PATH env) as [f|]; [|split; [split|]; try done].
  - split; [|done]. split.
    + intros [-> ->]%orb_false_iff. eauto.
    + by intros (-> & _ & [= ->]).
  - by intros (_ & []%is_Some_None & _).
Qed.

Lemma engine_invoked_iff env text fs0 :
  engine_invoked env text fs0 <-> accepted text /\ engine_ready env fs0.
Proof.
  split; [apply engine_invoked_inv|]. intros [Hok Hready].
  exists (command env).
  destruct (aftermath_log_cases env text fs0 Hok)
    as [(Hnr & _)|[(_ & _ & ok & ->)|(_ & _ & ok1 & ok2 & ->)]];
    [done| |];
    rewrite !elem_of_app; right; right; apply elem_of_cons; by left.
Qed.

(** X11: when /health reports "healthy", an accepted request sent to
    /synthesize on the same files gets as far as calling the engine: it
    is not answered with a missing engine or model. *)
Theorem healthy_host_runs_engine env s h text :
  health_check env s = (Return h, s) ->
  status h = lit "healthy" ->
  accepted text ->
  engine_invoked env text (fs s).
Proof.
  intros Hh Hs Hok.
  destruct (health_check_report env s) as (h' & Hh' & Hp & Hm & _ & Hst).
  rewrite Hh in Hh'. injection Hh' as <-.
  apply engine_invoked_iff. split; [done|].
  rewrite Hst in Hs.
  destruct (piper_found h) eqn:Hpf; [|by apply healthy_ne in Hs].
  destruct (model_found h) eqn:Hmf; [|by apply healthy_ne in Hs].
  symmetry in Hp, Hm. apply bool_decide_eq_true in Hp, Hm. done.
Qed.

Lemma healthy_host_runs_engine_witness :
  accepted hello /\ engine_invoked working_host hello deployed.
Proof.
  assert (Hok : accepted hello) by (split; vm_compute; [done|lia]).
  split; [exact Hok|].
  destruct (health_check_report working_host (init deployed))
    as (h & Hh & _).
  apply (healthy_host_runs_engine working_host (init deployed) h hello Hh);
    [|exact Hok].
  vm_compute in Hh. injection Hh as <-. reflexivity.
Defined.

(** X12: after a request that called the engine, on Windows or on a host
    that did not refuse the chmod, /health reports "healthy": the request
    itself makes the engine executable. *)
Theorem health_after_request env text fs0 s :
  engine_invoked env text fs0 ->
  IS_WINDOWS env = true \/ chmod_refused env = None ->
  fs s = (aftermath env text fs0).1 ->
  exists h, health_check env s = (Return h, s) /\ status h = lit "healthy".
Proof.
  intros (Hok & [fp HP] & [fm HM])%engine_invoked_inv Hx Hfs.
  destruct (health_check_report env s) as (h & Hh & Hp & Hm & He & Hst).
  exists h. split; [done|]. rewrite Hst, Hp, Hm, He, Hfs.
  assert (Hready : engine_ready env fs0) by (split; eauto).
  rewrite !aftermath_lookup by auto using model_ne_piper with paths.
  rewrite !(bool_decide_eq_true_2 (engine_ready env fs0)) by done.
  rewrite (run_lookup_other env text fs0 (MODEL_PATH env))
    by first [apply model_ne_piper | apply model_ne_output
             | apply not_eq_sym, temp_ne_model].
  rewrite run_lookup_piper, primed_lookup_piper, HP, HM.
  rewrite !bool_decide_eq_true_2 by eauto. cbn [andb].
  destruct (IS_WINDOWS env); [done|]. cbn [negb orb].
  destruct Hx as [[=]| ->]. cbn [mode]. by rewrite may_execute_755.
Qed.

Lemma health_after_request_witness :
  engine_invoked stalling_host hello installed
  /\ (os_access_X_OK (PIPER_PATH stalling_host) (init installed)).1
     = Return false
  /\ exists h,
       health_check stalling_host
         (init (aftermath stalling_host hello installed).1)
       = (Return h,
          init (aftermath stalling_host hello installed).1)
       /\ status h = lit "healthy".
Proof.
  assert (Hrun : engine_invoked stalling_host hello installed)
    by (exists (command stalling_host); by_evaluation).
  split; [exact Hrun|]. split; [reflexivity|].
  apply (health_after_request stalling_host hello installed _ Hrun);
    [right; reflexivity|reflexivity].
Defined.

(** *** What the caller can get *)

(** The ways an accepted request whose text was stored can end. *)
Lemma stored_reply_forms env text fs0 :
  accepted text ->
  response env text fs0 = Return (served_response env)
  \/ (exists d,
        response env text fs0 = Raise (HTTPException 500 d)
        /\ (d = lit "Speech synthesis timed out"
            \/ lit "Piper execution failed: " `prefix_of` d
            \/ lit "Error: " `prefix_of` d))
  \/ (exists b,
        response env text fs0 = Raise (UnicodeDecodeError b)
        /\ b <> [] /\ decode b = None).
Proof.
  intros Hok. destruct (synthesize_run env text fs0 Hok) as [-> _].
  destruct (exit_of env text fs0) as [| |msg|c|c|c b|c|c f|c f];
    cbn [reply wrapped]; try (left; reflexivity);
    try (right; left; eexists; split; [reflexivity|];
         first [left; reflexivity | right; right; by eexists]).
  destruct (truthy (stderr c)) eqn:Ht.
  - destruct (decode (stderr c)) eqn:Hd.
    + right. left. eexists. split; [reflexivity|]. right. left. by eexists.
    + right. right. exists (stderr c). repeat split; try done.
      by destruct (stderr c).
  - right. left. eexists. split; [reflexivity|]. right. left. by eexists.
Qed.

(** X13: an accepted request ends in one of five ways.  When the
    temporary directory stores the text: with the file response; with a
    500 whose detail is "Speech synthesis timed out", or starts with
    "Piper execution failed: ", or starts with "Error: "; or, when the
    engine failed and its standard error is not UTF-8, with the
    [UnicodeDecodeError] of that stream, which no clause catches.  When
    the staged input cannot be created, with the [OSError] of
    [NamedTemporaryFile]; when it cannot be written, with the exception
    of the write.  The last two leave from lines 78-80, outside the
    [try], and reach the caller as they are. *)
Theorem accepted_reply_forms env text fs0 t :
  accepted text ->
  (t text = Stored
   /\ ((synthesize env text (host fs0 t)).1 = Return (served_response env)
       \/ (exists d,
             (synthesize env text (host fs0 t)).1
             = Raise (HTTPException 500 d)
             /\ (d = lit "Speech synthesis timed out"
                 \/ lit "Piper execution failed: " `prefix_of` d
                 \/ lit "Error: " `prefix_of` d))
       \/ (exists b,
             (synthesize env text (host fs0 t)).1
             = Raise (UnicodeDecodeError b)
             /\ b <> [] /\ decode b = None)))
  \/ (exists msg,
        t text = NotCreated msg
        /\ (synthesize env text (host fs0 t)).1 = Raise (OSError msg))
  \/ (exists e kept,
        t text = NotWritten e kept
        /\ (synthesize env text (host fs0 t)).1 = Raise e).
Proof.
  intros Hok. destruct (t text) as [|msg|e kept] eqn:Ht.
  - left. split; [done|].
    destruct (stored_as_init env text fs0 t Ht) as [-> _].
    by apply stored_reply_forms.
  - right. left. exists msg. split; [done|].
    by rewrite (synthesize_not_created env text (host fs0 t) msg).
  - right. right. exists e, kept. split; [done|].
    by apply (synthesize_not_written env text (host fs0 t) e kept).
Qed.

Lemma accepted_reply_forms_witness :
  accepted lone_surrogate
  /\ strict_encoder lone_surrogate
     = NotWritten (UnicodeEncodeError lone_surrogate) []
  /\ (synthesize working_host lone_surrogate (host ∅ strict_encoder)).1
     = Raise (UnicodeEncodeError lone_surrogate).
Proof.
  assert (Hok : accepted lone_surrogate) by (split; vm_compute; [done|lia]).
  split; [exact Hok|]. split; [reflexivity|].
  destruct (accepted_reply_forms working_host lone_surrogate ∅ strict_encoder
              Hok) as [[Ht _]|[(msg & Ht & _)|(e & kept & Ht & ->)]];
    [discriminate Ht|discriminate Ht|].
  by injection Ht as <- _.
Defined.

Lemma reply_ignores_file env c f g :
  size_of f = size_of g ->
  reply env (if (size_of f <? 1000)%nat then Suspect c f else Served c f)
  = reply env (if (size_of g <? 1000)%nat then Suspect c g else Served c g).
Proof. intros ->. by destruct (size_of g <? 1000)%nat. Qed.

(** X14: two hosts on which the engine's run is the same give the same
    answer as soon as their files agree on three things: whether the
    engine exists, whether the model exists, and the size of what is at
    the output path.  Nothing else of the files present when the request
    arrives is read by the handler itself. *)
Theorem reply_reads_three_paths env e text fs0 fs1 :
  e [PIPER_PATH env; lit "--model"; MODEL_PATH env; lit "--output_file";
     lit "output_" ++ uuid_output env ++ lit ".wav"] (Text text)
  = engine env
      [PIPER_PATH env; lit "--model"; MODEL_PATH env; lit "--output_file";
       lit "output_" ++ uuid_output env ++ lit ".wav"] (Text text) ->
  (is_Some (fs0 !! PIPER_PATH env) <-> is_Some (fs1 !! PIPER_PATH env)) ->
  (is_Some (fs0 !! MODEL_PATH env) <-> is_Some (fs1 !! MODEL_PATH env)) ->
  size_of <$> fs0 !! output_path env = size_of <$> fs1 !! output_path env ->
  response (with_engine e env) text fs1 = response env text fs0.
Proof.
  intros He HP HM Hout.
  destruct (accepted_dec text) as [Hok|Hno].
  2: { unfold response. destruct (truthy (strip text)) eqn:Hne.
       - destruct (decide (len text <= 1000)%nat) as [Hle|Hgt];
           [destruct Hno; done|].
         by rewrite !synthesize_too_long by (done || lia).
       - by rewrite !synthesize_empty. }
  destruct (synthesize_run env text fs0 Hok) as [-> _].
  destruct (synthesize_run (with_engine e env) text fs1 Hok) as [-> _].
  assert (Hinv : invocation (with_engine e env) text = invocation env text)
    by exact He.
  change (reply (with_engine e env)) with (reply env).
  unfold exit_of, produced. rewrite Hinv.
  change (PIPER_PATH (with_engine e env)) with (PIPER_PATH env).
  change (MODEL_PATH (with_engine e env)) with (MODEL_PATH env).
  change (output_path (with_engine e env)) with (output_path env).
  destruct (fs0 !! PIPER_PATH env) as [p0|] eqn:HP0,
    (fs1 !! PIPER_PATH env) as [p1|] eqn:HP1;
    try done; try (by destruct HP as [[? [=]] _]; eauto);
    try (by destruct HP as [_ [? [=]]]; eauto).
  destruct (fs0 !! MODEL_PATH env) as [m0|] eqn:HM0,
    (fs1 !! MODEL_PATH env) as [m1|] eqn:HM1;
    try done; try (by destruct HM as [[? [=]] _]; eauto);
    try (by destruct HM as [_ [? [=]]]; eauto).
  destruct (proc (invocation env text)) as [c|msg]; [|done].
  destruct (30 * 1000 <? elapsed_ms c); [done|].
  destruct (negb (returncode c =? 0)%Z); [done|].
  destruct (decode (stdout c)); [|done].
  destruct (decode (stderr c)); [|done].
  destruct (artifact (invocation env text)); [done|].
  destruct (fs0 !! output_path env) as [f|], (fs1 !! output_path env) as [g|];
    try done.
  apply reply_ignores_file. by injection Hout.
Qed.

Lemma reply_reads_three_paths_witness :
  installed <> installed_and_notes
  /\ response picky_host (lit " hi ") installed_and_notes
     = response working_host (lit " hi ") installed.
Proof.
  split.
  - intros H. apply (f_equal (fun g => g !! lit "notes.txt")) in H.
    vm_compute in H. discriminate.
  - change picky_host with (with_engine picky_engine working_host).
    apply (reply_reads_three_paths working_host picky_engine (lit " hi ")
             installed installed_and_notes);
      vm_compute; (reflexivity || tauto).
Defined.

(** X15: the handler consults the engine once, with the command line of
    line 99 and the text exactly as sent on standard input: two engines
    that agree on that one invocation give the same reply. *)
Theorem reply_reads_one_invocation env e text fs0 :
  e [PIPER_PATH env; lit "--model"; MODEL_PATH env; lit "--output_file";
     lit "output_" ++ uuid_output env ++ lit ".wav"] (Text text)
  = engine env
      [PIPER_PATH env; lit "--model"; MODEL_PATH env; lit "--output_file";
       lit "output_" ++ uuid_output env ++ lit ".wav"] (Text text) ->
  response (with_engine e env) text fs0 = response env text fs0.
Proof.
  intros He.
  destruct (accepted_dec text) as [Hok|Hno].
  2: { unfold response. destruct (truthy (strip text)) eqn:Hne.
       - destruct (decide (len text <= 1000)%nat) as [Hle|Hgt];
           [destruct Hno; done|].
         by rewrite !synthesize_too_long by (done || lia).
       - by rewrite !synthesize_empty. }
  destruct (synthesize_run env text fs0 Hok) as [-> _].
  destruct (synthesize_run (with_engine e env) text fs0 Hok) as [-> _].
  assert (Hinv : invocation (with_engine e env) text = invocation env text)
    by exact He.
  unfold exit_of, produced. rewrite Hinv. reflexivity.
Qed.

Lemma reply_reads_one_invocation_witness :
  strip (lit " hi ") = lit "hi"
  /\ response picky_host (lit " hi ") installed
     = Return (served_response working_host).
Proof.
  split; [vm_compute; reflexivity|].
  change picky_host with (with_engine picky_engine working_host).
  rewrite (reply_reads_one_invocation working_host picky_engine (lit " hi ")
             installed); [|reflexivity].
  vm_compute. reflexivity.
Defined.

(** X16: the handler itself never writes at the output path: unless the
    engine was started and left an artifact, the file there, if any, is
    what it was when the request arrived. *)
Theorem output_path_written_by_engine_only env text fs0 :
  ~ (accepted text /\ engine_ready env fs0
     /\ exists c b,
          proc (invocation env text) = Started c
          /\ artifact (invocation env text) = Some b) ->
  (aftermath env text fs0).1 !! output_path env = fs0 !! output_path env.
Proof.
  intros Hno.
  destruct (accepted_dec text) as [Hok|Hrej];
    [|by rewrite aftermath_rejected].
  rewrite aftermath_lookup by auto with paths.
  case_bool_decide as Hready; [|done].
  unfold after_run, finished, launched.
  destruct (proc (invocation env text)) as [c|msg] eqn:Hproc;
    cbn -[staged primed].
  - destruct (artifact (invocation env text)) as [b|] eqn:Hart.
    + destruct Hno. eauto 8.
    + rewrite primed_fst_lookup by auto with paths.
      cbn. apply lookup_insert_ne. auto with paths.
  - rewrite primed_fst_lookup by auto with paths.
    cbn. apply lookup_insert_ne. auto with paths.
Qed.

Lemma output_path_written_by_engine_only_witness :
  (aftermath silent_host hello installed).1 !! output_path silent_host = None.
Proof.
  apply (output_path_written_by_engine_only silent_host hello installed).
  intros (_ & _ & c & b & _ & Hart). vm_compute in Hart. discriminate.
Defined.

(** X17: when the host refuses the first unlink of a request and not the
    second, the staged input is deleted exactly when the request is
    served: only the served path unlinks twice, so only there the
    deletion is tried again. *)
Theorem refused_unlink_retried_only_when_served env text fs0 :
  accepted text ->
  is_Some (unlink_refused env 0) ->
  unlink_refused env 1 = None ->
  ((aftermath env text fs0).1 !! temp_path env = None
   <-> is_served (response env text fs0) = true).
Proof.
  intros Hok [msg Hr0] Hr1.
  destruct (synthesize_run env text fs0 Hok) as [-> ->].
  pose proof (run_pristine env text fs0) as Hrun.
  pose proof (staged_pristine env text fs0) as Hst.
  destruct (before_finally_cases env text fs0)
    as [[-> Hmiss]|(HP & HM & [[-> Hns]|[-> (c & f & Hx)]])].
  - rewrite (unlinked_pristine env text) by done. rewrite Hr0.
    cbn [fst]. destruct Hst as [-> _]. split; [done|].
    intros Hs. apply (reply_served env) in Hs as (c & f & Hx).
    assert (Hsv : servable env text fs0) by (apply exit_served_iff; eauto).
    destruct Hsv as [[[? ?] [? ?]] _]. destruct Hmiss; congruence.
  - rewrite (unlinked_pristine env text) by done. rewrite Hr0.
    cbn [fst]. destruct Hrun as [-> _]. split; [done|].
    intros Hs. apply (reply_served env) in Hs as (c & f & Hx).
    by apply Hns in Hx.
  - rewrite Hx. cbn [reply is_served].
    rewrite (unlinked_pristine env text _ Hrun), Hr0.
    destruct Hrun as [Hf Hl]. unfold unlinked. cbn [fst snd].
    rewrite attempts_snoc, (untouched_attempts _ Hl), Hr1, Hf.
    cbn [fst]. by rewrite lookup_delete_eq.
Qed.

Lemma refused_unlink_retried_only_when_served_witness :
  (aftermath (grudging_host (quick 0 [] [] (Some (replicate 1000 x00))))
     hello installed).1
    !! temp_path (grudging_host (quick 0 [] [] (Some (replicate 1000 x00))))
  = None
  /\ is_Some
       ((aftermath (grudging_host hung) hello installed).1
          !! temp_path (grudging_host hung)).
Proof.
  assert (Hok : accepted hello) by (split; vm_compute; [done|lia]).
  split.
  - apply (refused_unlink_retried_only_when_served
             (grudging_host (quick 0 [] [] (Some (replicate 1000 x00))))
             hello installed Hok); [by eexists|reflexivity|].
    vm_compute. reflexivity.
  - destruct ((aftermath (grudging_host hung) hello installed).1
                !! temp_path (grudging_host hung)) eqn:Hl; [by eexists|].
    apply (refused_unlink_retried_only_when_served (grudging_host hung)
             hello installed Hok) in Hl; [|by eexists|reflexivity].
    vm_compute in Hl. discriminate.
Defined.

(** *** Staging *)

(** X20: in every request whose staged input is created and stored,
    whatever the way out, the file is deleted exactly once and is gone
    when the handler is done, unless the host refuses the deletion, in
    which case no deletion is on record and the file stays; and what the
    caller gets does not depend on which deletions the host refuses. *)
Theorem stored_input_deleted_once env text fs0 t :
  t text = Stored ->
  Created (temp_path env) ∈ log (synthesize env text (host fs0 t)).2 ->
  (deletions (temp_path env) (log (synthesize env text (host fs0 t)).2)
   = 1%nat
   /\ fs (synthesize env text (host fs0 t)).2 !! temp_path env = None
   \/ deletions (temp_path env) (log (synthesize env text (host fs0 t)).2)
      = 0%nat
      /\ is_Some (fs (synthesize env text (host fs0 t)).2 !! temp_path env)
      /\ is_Some (unlink_refused env 0))
  /\ (unlink_refused env 0 = None ->
      deletions (temp_path env) (log (synthesize env text (host fs0 t)).2)
      = 1%nat
      /\ fs (synthesize env text (host fs0 t)).2 !! temp_path env = None)
  /\ (forall refuse,
        (synthesize (with_unlink_refused refuse env) text (host fs0 t)).1
        = (synthesize env text (host fs0 t)).1).
Proof.
  intros Ht Hin.
  destruct (stored_as_init env text fs0 t Ht) as [Hr Hw].
  assert (Hfs : fs (synthesize env text (host fs0 t)).2
                = (aftermath env text fs0).1) by by rewrite <- Hw.
  assert (Hlog : log (synthesize env text (host fs0 t)).2
                 = (aftermath env text fs0).2) by by rewrite <- Hw.
  rewrite Hfs, Hlog in *.
  destruct (staged_input_deleted_once env text fs0 Hin) as (H1 & H2 & H3).
  split; [exact H1|]. split; [exact H2|].
  intros refuse. rewrite Hr.
  destruct (stored_as_init (with_unlink_refused refuse env) text fs0 t Ht)
    as [-> _].
  apply H3.
Qed.

Lemma stored_input_deleted_once_witness :
  strict_encoder hello = Stored
  /\ log (synthesize working_host hello (host installed strict_encoder)).2
     = [Created (temp_path working_host);
        Chmod (PIPER_PATH working_host) true;
        Spawned (command working_host);
        Unlink (temp_path working_host) true;
        Unlink (temp_path working_host) false]
  /\ deletions (temp_path working_host)
       (log (synthesize working_host hello (host installed strict_encoder)).2)
     = 1%nat
  /\ fs (synthesize working_host hello (host installed strict_encoder)).2
       !! temp_path working_host
     = None.
Proof.
  assert (Ht : strict_encoder hello = Stored) by reflexivity.
  assert (Hlog :
    log (synthesize working_host hello (host installed strict_encoder)).2
    = [Created (temp_path working_host);
       Chmod (PIPER_PATH working_host) true;
       Spawned (command working_host);
       Unlink (temp_path working_host) true;
       Unlink (temp_path working_host) false])
    by (vm_compute; reflexivity).
  split; [exact Ht|]. split; [exact Hlog|].
  apply (stored_input_deleted_once working_host hello installed
           strict_encoder Ht); [|reflexivity].
  rewrite Hlog. apply elem_of_cons. by left.
Defined.

(** X21: when the staged input of an accepted request cannot be created,
    the [OSError] reaches the caller as it is and nothing has changed;
    when it is created and cannot be written, the exception of the write
    reaches the caller as it is, the file stays with what reached it, no
    other file is touched, and no other system call is made: neither the
    engine nor [os.unlink] is called. *)
Theorem failed_staging_escapes env text fs0 t :
  accepted text ->
  (forall msg,
     t text = NotCreated msg ->
     synthesize env text (host fs0 t) = (Raise (OSError msg), host fs0 t))
  /\ (forall e kept,
        t text = NotWritten e kept ->
        (synthesize env text (host fs0 t)).1 = Raise e
        /\ log (synthesize env text (host fs0 t)).2
           = [Created (temp_stem env ++ lit ".txt")]
        /\ fs (synthesize env text (host fs0 t)).2
           = <[temp_stem env ++ lit ".txt" := File (Text kept) 384]> fs0).
Proof.
  intros Hok. split.
  - intros msg Ht. by apply synthesize_not_created.
  - intros e kept Ht.
    destruct (synthesize_not_written env text (host fs0 t) e kept Hok Ht)
      as [Hr Hw].
    split; [exact Hr|]. split.
    + change (log (synthesize env text (host fs0 t)).2)
        with (world_of (synthesize env text (host fs0 t)).2).2.
      by rewrite Hw.
    + change (fs (synthesize env text (host fs0 t)).2)
        with (world_of (synthesize env text (host fs0 t)).2).1.
      by rewrite Hw.
Qed.

Lemma failed_staging_escapes_witness :
  accepted lone_surrogate
  /\ (synthesize working_host lone_surrogate (host ∅ strict_encoder)).1
     = Raise (UnicodeEncodeError lone_surrogate)
  /\ log (synthesize working_host lone_surrogate (host ∅ strict_encoder)).2
     = [Created (lit "/tmp/tmpk3v9x2ab.txt")]
  /\ fs (synthesize working_host lone_surrogate (host ∅ strict_encoder)).2
     = <[lit "/tmp/tmpk3v9x2ab.txt" := File (Text []) 384]> ∅.
Proof.
  assert (Hok : accepted lone_surrogate) by (split; vm_compute; [done|lia]).
  split; [exact Hok|].
  destruct (failed_staging_escapes working_host lone_surrogate ∅
              strict_encoder Hok) as [_ H].
  apply (H (UnicodeEncodeError lone_surrogate) []). reflexivity.
Defined.
